(** * generate_report.py: the paginated report renderer

    A shallow embedding of [src/generate_report.py]: the class [RPGReport]
    (header, footer, chapter_title, body_text, bullet_point, code_block,
    bold_text) and the driver [generate_report], together with the part of
    the fpdf2 drawing context those methods call into (cursor, fonts and
    colours, [cell], [multi_cell], [line], [rect], [ln], [add_page], the
    automatic page break, and the substitution of the total-page alias
    performed by [output]).

    Lengths are millimetres, kept as exact rationals; Python computes them
    in binary floating point, whose rounding is not modelled: the
    properties that describe a page-break decision itself ([code_block]
    against 270, [cell] against the trigger) leave a band of [slack]
    around the threshold, inside which the program may decide either
    way.  A drawing
    call appends one entry to the log [out]; an entry records the page it
    lands on, which of header(), footer() or the content code drew it, and
    the primitive itself.  Text measurement (font metrics and the line
    breaking of [multi_cell]) belongs to the font tables of the library and
    is a parameter of the development. *)

From Stdlib Require Import QArith Lqa ZArith Lia Bool List String Ascii.
From Stdlib Require Import Decimal DecimalString.
Import ListNotations.

Open Scope string_scope.
Open Scope Q_scope.

(** ** Outcomes *)

(** fpdf2 raises [FPDFException] when a drawing method is called before
    the first add_page() and when text is drawn before any set_font(). *)
Inductive exn : Type :=
| FPDFException (msg : string).

Inductive result (A : Type) : Type :=
| Ok (a : A)
| Raise (e : exn).

Arguments Ok {A} a.
Arguments Raise {A} e.

Definition bind {A B : Type} (r : result A) (k : A -> result B) : result B :=
  match r with
  | Ok a => k a
  | Raise e => Raise e
  end.

Notation "x <- r ;; k" := (bind r (fun x => k))
  (at level 100, r at next level, right associativity).

Definition no_page_open : exn :=
  FPDFException "No page open, you need to call add_page() first".

Definition no_font_set : exn :=
  FPDFException "No font set, you need to call set_font() beforehand".

Definition not_enough_space : exn :=
  FPDFException "Not enough horizontal space to render a single character".

(** ** Page geometry of [RPGReport()]: FPDF defaults, portrait A4 in mm *)

(** One millimetre in points. *)
Definition k : Q := 72 / 25.4.

Definition page_w : Q := 595.28 / k.
Definition page_h : Q := 841.89 / k.

Definition l_margin : Q := 10.
Definition t_margin : Q := 10.
Definition r_margin : Q := 10.

(** ** Drawn primitives *)

Definition rgb : Type := (Z * Z * Z)%type.

Inductive Align : Type := AlignL | AlignC | AlignR | AlignJ.

Inductive XPos : Type := XLEFT | XRIGHT | XLMARGIN.
Inductive YPos : Type := YTOP | YNEXT.

Inductive prim : Type :=
| Text (x y w h : Q) (txt : string) (align : Align)
       (family style : string) (size_pt : Z) (color : rgb)
| Line (x1 y1 x2 y2 : Q) (stroke : rgb)
| Rect (x y w h : Q) (style : string) (stroke fill : rgb).

(** Who issued the drawing call. *)
Inductive region : Type := Header | Body | Footer.

Record entry : Type := mkEntry {
  on_page : nat;
  origin : region;
  what : prim
}.

Definition region_eqb (a b : region) : bool :=
  match a, b with
  | Header, Header | Body, Body | Footer, Footer => true
  | _, _ => false
  end.

(** ** The drawing context *)

Record pdf : Type := mkPdf {
  page : nat;
  x : Q;
  y : Q;
  font_family : string;
  font_style : string;
  font_size_pt : Z;
  text_color : rgb;
  draw_color : rgb;
  fill_color : rgb;
  auto_page_break : bool;
  b_margin : Q;
  str_alias_nb_pages : string;
  out : list entry
}.

(** [FPDF.__init__]: no page, no font, black colours, automatic page break
    with a 2 cm margin, total-page alias "{nb}". *)
Definition new_pdf : pdf :=
  {| page := 0; x := l_margin; y := t_margin;
     font_family := ""; font_style := ""; font_size_pt := 12;
     text_color := (0, 0, 0)%Z; draw_color := (0, 0, 0)%Z;
     fill_color := (0, 0, 0)%Z;
     auto_page_break := true; b_margin := 20;
     str_alias_nb_pages := "{nb}";
     out := [] |}.

Definition page_break_trigger (s : pdf) : Q := page_h - b_margin s.

Definition with_xy (nx ny : Q) (s : pdf) : pdf :=
  {| page := page s; x := nx; y := ny;
     font_family := font_family s; font_style := font_style s;
     font_size_pt := font_size_pt s;
     text_color := text_color s; draw_color := draw_color s;
     fill_color := fill_color s;
     auto_page_break := auto_page_break s; b_margin := b_margin s;
     str_alias_nb_pages := str_alias_nb_pages s;
     out := out s |}.

Definition set_font (family style : string) (size : Z) (s : pdf) : pdf :=
  {| page := page s; x := x s; y := y s;
     font_family := family; font_style := style; font_size_pt := size;
     text_color := text_color s; draw_color := draw_color s;
     fill_color := fill_color s;
     auto_page_break := auto_page_break s; b_margin := b_margin s;
     str_alias_nb_pages := str_alias_nb_pages s;
     out := out s |}.

Definition set_text_color (r g b : Z) (s : pdf) : pdf :=
  {| page := page s; x := x s; y := y s;
     font_family := font_family s; font_style := font_style s;
     font_size_pt := font_size_pt s;
     text_color := (r, g, b); draw_color := draw_color s;
     fill_color := fill_color s;
     auto_page_break := auto_page_break s; b_margin := b_margin s;
     str_alias_nb_pages := str_alias_nb_pages s;
     out := out s |}.

Definition set_draw_color (r g b : Z) (s : pdf) : pdf :=
  {| page := page s; x := x s; y := y s;
     font_family := font_family s; font_style := font_style s;
     font_size_pt := font_size_pt s;
     text_color := text_color s; draw_color := (r, g, b);
     fill_color := fill_color s;
     auto_page_break := auto_page_break s; b_margin := b_margin s;
     str_alias_nb_pages := str_alias_nb_pages s;
     out := out s |}.

Definition set_fill_color (r g b : Z) (s : pdf) : pdf :=
  {| page := page s; x := x s; y := y s;
     font_family := font_family s; font_style := font_style s;
     font_size_pt := font_size_pt s;
     text_color := text_color s; draw_color := draw_color s;
     fill_color := (r, g, b);
     auto_page_break := auto_page_break s; b_margin := b_margin s;
     str_alias_nb_pages := str_alias_nb_pages s;
     out := out s |}.

Definition set_auto_page_break (auto : bool) (margin : Q) (s : pdf) : pdf :=
  {| page := page s; x := x s; y := y s;
     font_family := font_family s; font_style := font_style s;
     font_size_pt := font_size_pt s;
     text_color := text_color s; draw_color := draw_color s;
     fill_color := fill_color s;
     auto_page_break := auto; b_margin := margin;
     str_alias_nb_pages := str_alias_nb_pages s;
     out := out s |}.

Definition alias_nb_pages (alias : string) (s : pdf) : pdf :=
  {| page := page s; x := x s; y := y s;
     font_family := font_family s; font_style := font_style s;
     font_size_pt := font_size_pt s;
     text_color := text_color s; draw_color := draw_color s;
     fill_color := fill_color s;
     auto_page_break := auto_page_break s; b_margin := b_margin s;
     str_alias_nb_pages := alias;
     out := out s |}.

(** Appends a primitive to the current page. *)
Definition emit (r : region) (p : prim) (s : pdf) : pdf :=
  {| page := page s; x := x s; y := y s;
     font_family := font_family s; font_style := font_style s;
     font_size_pt := font_size_pt s;
     text_color := text_color s; draw_color := draw_color s;
     fill_color := fill_color s;
     auto_page_break := auto_page_break s; b_margin := b_margin s;
     str_alias_nb_pages := str_alias_nb_pages s;
     out := out s ++ [mkEntry (page s) r p] |}.

(** [_beginpage]: the next page, cursor at the top left of the margins. *)
Definition begin_page (s : pdf) : pdf :=
  {| page := S (page s); x := l_margin; y := t_margin;
     font_family := font_family s; font_style := font_style s;
     font_size_pt := font_size_pt s;
     text_color := text_color s; draw_color := draw_color s;
     fill_color := fill_color s;
     auto_page_break := auto_page_break s; b_margin := b_margin s;
     str_alias_nb_pages := str_alias_nb_pages s;
     out := out s |}.

Definition get_x (s : pdf) : Q := x s.
Definition get_y (s : pdf) : Q := y s.
Definition page_no (s : pdf) : nat := page s.

Definition Qltb (a b : Q) : bool := negb (Qle_bool b a).

(** A negative coordinate counts from the right or bottom edge. *)
Definition set_x (nx : Q) (s : pdf) : pdf :=
  with_xy (if Qle_bool 0 nx then nx else page_w + nx) (y s) s.

Definition set_y (ny : Q) (s : pdf) : pdf :=
  with_xy l_margin (if Qle_bool 0 ny then ny else page_h + ny) s.

Definition set_xy (nx ny : Q) (s : pdf) : pdf := set_x nx (set_y ny s).

(** [ln(h)]: back to the left margin, down by [h]. Every call of the
    source passes [h]. *)
Definition ln_move (h : Q) (s : pdf) : pdf := with_xy l_margin (y s + h) s.

(** The drawing part of [cell]: a width of 0 extends to the right margin;
    the text is set in the current font and text colour; the cursor moves
    as [new_x] and [new_y] say. *)
Definition cell_draw (r : region) (w h : Q) (txt : string) (align : Align)
    (new_x : XPos) (new_y : YPos) (s : pdf) : pdf :=
  let w' := if Qeq_bool w 0 then page_w - r_margin - x s else w in
  let s1 := emit r (Text (x s) (y s) w' h txt align (font_family s)
                      (font_style s) (font_size_pt s) (text_color s)) s in
  with_xy (match new_x with
           | XLEFT => x s
           | XRIGHT => x s + w'
           | XLMARGIN => l_margin
           end)
          (match new_y with
           | YTOP => y s
           | YNEXT => y s + h
           end) s1.

Definition line_draw (r : region) (x1 y1 x2 y2 : Q) (s : pdf) : pdf :=
  emit r (Line x1 y1 x2 y2 (draw_color s)) s.

Definition string_of_nat (n : nat) : string :=
  NilEmpty.string_of_uint (Nat.to_uint n).

Definition string_of_Z (z : Z) : string :=
  NilZero.string_of_int (Z.to_int z).

(** ** Python helpers *)

(** [str * n]: no repetition at all when [n] is zero or negative. *)
Fixpoint repeat_string (s : string) (n : nat) : string :=
  match n with
  | O => ""
  | S n' => s ++ repeat_string s n'
  end.

Definition str_mul (s : string) (n : Z) : string :=
  if (n <=? 0)%Z then "" else repeat_string s (Z.to_nat n).

Definition len (s : string) : Z := Z.of_nat (String.length s).

Definition newline : ascii := "010"%char.

(** [code.split("\n")]: always at least one piece. *)
Fixpoint split_nl (s : string) : list string :=
  match s with
  | EmptyString => [""]
  | String c s' =>
      if Ascii.eqb c newline then "" :: split_nl s'
      else match split_nl s' with
           | l :: ls => String c l :: ls
           | [] => [String c ""]
           end
  end.

(** [bytes.replace(old, new)], scanning left to right; [skip] counts the
    characters of a match still to be dropped. *)
Fixpoint replace_from (old new s : string) (skip : nat) : string :=
  match s with
  | EmptyString => ""
  | String c s' =>
      match skip with
      | S n => replace_from old new s' n
      | O =>
          if String.prefix old s
          then new ++ replace_from old new s' (String.length old - 1)
          else String c (replace_from old new s' 0)
      end
  end.

Definition replace (old new s : string) : string :=
  match old with
  | EmptyString => s
  | _ => replace_from old new s 0
  end.

(** ** RPGReport.header and RPGReport.footer *)

(** Both run inside [add_page] (the footer also inside [output]), where the
    page-break test of [cell] never fires: the footer runs with [in_footer]
    set, and the two cells of the header end at 15, far above the trigger
    that the bottom margin of the report leaves. Their cells are therefore
    the bare [cell_draw]. *)
Definition header (s : pdf) : pdf :=
  let s := set_font "Helvetica" "I" 8 s in
  let s := set_text_color 120 120 120 s in
  let s := cell_draw Header 0 5 "TP3 - Hexagone 2026 | Mathias Kowalski"
             AlignL XRIGHT YTOP s in
  let s := cell_draw Header 0 5
             ("Page " ++ string_of_nat (page_no s) ++ "/{nb}")
             AlignR XLMARGIN YNEXT s in
  let s := line_draw Header 10 13 200 13 s in
  ln_move 4 s.

Definition footer (s : pdf) : pdf :=
  let s := set_y (-15) s in
  let s := set_font "Helvetica" "I" 8 s in
  let s := set_text_color 120 120 120 s in
  let s := line_draw Footer 10 (get_y s - 2) 200 (get_y s - 2) s in
  cell_draw Footer 0 10 "Below - Console RPG | C++17 / ECS Architecture"
    AlignC XRIGHT YTOP s.

(** ** add_page and the automatic page break *)

(** What [add_page] puts back after the footer and again after the header:
    the font when one was set, and the three colours. *)
Definition restore_graphics (saved s : pdf) : pdf :=
  {| page := page s; x := x s; y := y s;
     font_family :=
       if String.eqb (font_family saved) "" then font_family s
       else font_family saved;
     font_style :=
       if String.eqb (font_family saved) "" then font_style s
       else font_style saved;
     font_size_pt :=
       if String.eqb (font_family saved) "" then font_size_pt s
       else font_size_pt saved;
     text_color := text_color saved; draw_color := draw_color saved;
     fill_color := fill_color saved;
     auto_page_break := auto_page_break s; b_margin := b_margin s;
     str_alias_nb_pages := str_alias_nb_pages s;
     out := out s |}.

Definition add_page (s : pdf) : pdf :=
  let s1 := if (0 <? page s)%nat then footer s else s in
  let s2 := restore_graphics s (begin_page s1) in
  let s3 := header s2 in
  restore_graphics s s3.

(** The page-break test of a cell ([_perform_page_break_if_need_be]):
    the cell would end below the trigger and the automatic page break is
    on. *)
Definition will_page_break (h : Q) (s : pdf) : bool :=
  Qltb (page_break_trigger s) (y s + h) && auto_page_break s.

(** [_perform_page_break]: a new page, the abscissa kept. *)
Definition perform_page_break (s : pdf) : pdf :=
  let s' := add_page s in with_xy (x s) (y s') s'.

(** One rendered line of text, as [cell] and [multi_cell] produce it. *)
Definition render_line (w h : Q) (txt : string) (align : Align)
    (new_x : XPos) (new_y : YPos) (s : pdf) : pdf :=
  let s := if will_page_break h s then perform_page_break s else s in
  cell_draw Body w h txt align new_x new_y s.

(** ** The public drawing methods *)

Definition check_page (s : pdf) : result pdf :=
  if (0 <? page s)%nat then Ok s else Raise no_page_open.

Definition check_font (s : pdf) : result pdf :=
  if String.eqb (font_family s) "" then Raise no_font_set else Ok s.

Definition cell (w h : Q) (txt : string) (align : Align)
    (new_x : XPos) (new_y : YPos) (s : pdf) : result pdf :=
  s <- check_page s ;;
  s <- check_font s ;;
  Ok (render_line w h txt align new_x new_y s).

Definition line (x1 y1 x2 y2 : Q) (s : pdf) : result pdf :=
  s <- check_page s ;;
  Ok (line_draw Body x1 y1 x2 y2 s).

Definition rect (rx ry w h : Q) (style : string) (s : pdf) : result pdf :=
  s <- check_page s ;;
  Ok (emit Body (Rect rx ry w h style (draw_color s) (fill_color s)) s).

Definition ln (h : Q) (s : pdf) : result pdf :=
  s <- check_page s ;;
  Ok (ln_move h s).

(** One line of a broken text: its characters, whether the breaker
    wrapped it itself (such a line is justified) and whether a newline of
    the text ended it. *)
Record text_line : Type := mkTextLine {
  line_text : string;
  line_wrapped : bool;
  trailing_nl : bool
}.

(** Font metrics: the width of a string, and the lines into which
    [multi_cell] breaks a text for a given width, in a given font; the
    breaker gives up ([None]) when the width does not hold a single
    character. *)
Record metrics : Type := mkMetrics {
  get_string_width : string -> string -> Z -> string -> Q;
  wrap_lines : string -> string -> Z -> Q -> string -> option (list text_line)
}.

Definition empty_line : text_line := mkTextLine "" false false.

(** [multi_cell] always renders at least one line. *)
Definition at_least_one (ls : list text_line) : list text_line :=
  match ls with
  | [] => [empty_line]
  | _ => ls
  end.

(** The lines [multi_cell] renders, or the breaker's exception. *)
Definition text_lines (M : metrics) (s : pdf) (w : Q) (txt : string)
    : result (list text_line) :=
  match wrap_lines M (font_family s) (font_style s) (font_size_pt s) w txt with
  | None => Raise not_enough_space
  | Some ls => Ok (at_least_one ls)
  end.

(** In a justified [multi_cell] only the lines the breaker wrapped are
    justified. *)
Definition line_align (l : text_line) : Align :=
  if line_wrapped l then AlignJ else AlignL.

(** Every line but the last returns to the starting abscissa; the last
    one, never justified, ends at the right of the cell, one line down. *)
Fixpoint multi_cell_lines (w h : Q) (lines : list text_line) (s : pdf)
    : pdf :=
  match lines with
  | [] => s
  | [l] => render_line w h (line_text l) AlignL XRIGHT YNEXT s
  | l :: ls =>
      multi_cell_lines w h ls
        (render_line w h (line_text l) (line_align l) XLEFT YNEXT s)
  end.

(** Whether the last line was ended by a newline. *)
Fixpoint ends_with_nl (lines : list text_line) : bool :=
  match lines with
  | [] => false
  | [l] => trailing_nl l
  | _ :: ls => ends_with_nl ls
  end.

(** After a text that ends with a newline [multi_cell] calls [ln()], which
    goes down by the height of the last cell. *)
Definition render_text (w h : Q) (lines : list text_line) (s : pdf) : pdf :=
  let s := multi_cell_lines w h lines s in
  if ends_with_nl lines then ln_move h s else s.

Definition multi_cell (M : metrics) (w h : Q) (txt : string) (s : pdf)
    : result pdf :=
  s <- check_page s ;;
  s <- check_font s ;;
  let w' := if Qeq_bool w 0 then page_w - r_margin - x s else w in
  lines <- text_lines M s w' txt ;;
  Ok (render_text w' h lines s).

(** ** The block renderers of RPGReport *)

Definition chapter_title (title : string) (level : Z) (s : pdf) : result pdf :=
  if (level =? 1)%Z then
    let s := set_font "Helvetica" "B" 16 s in
    let s := set_text_color 25 55 120 s in
    s <- ln 4 s ;;
    s <- cell 0 10 title AlignL XLMARGIN YNEXT s ;;
    let s := set_draw_color 25 55 120 s in
    s <- line 10 (get_y s) 200 (get_y s) s ;;
    ln 4 s
  else if (level =? 2)%Z then
    let s := set_font "Helvetica" "B" 13 s in
    let s := set_text_color 40 80 150 s in
    s <- ln 3 s ;;
    s <- cell 0 8 title AlignL XLMARGIN YNEXT s ;;
    ln 2 s
  else if (level =? 3)%Z then
    let s := set_font "Helvetica" "B" 11 s in
    let s := set_text_color 60 100 170 s in
    s <- ln 2 s ;;
    s <- cell 0 7 title AlignL XLMARGIN YNEXT s ;;
    ln 1 s
  else Ok s.

Definition body_text (M : metrics) (text : string) (s : pdf) : result pdf :=
  let s := set_font "Helvetica" "" 10 s in
  let s := set_text_color 30 30 30 s in
  s <- multi_cell M 0 5.5 text s ;;
  ln 1 s.

Definition bullet_point (M : metrics) (text : string) (indent : Q) (s : pdf)
    : result pdf :=
  let s := set_font "Helvetica" "" 10 s in
  let s := set_text_color 30 30 30 s in
  let s := set_x (l_margin + indent) s in
  multi_cell M (page_w - r_margin - l_margin - indent) 5.5 ("- " ++ text) s.

(** The loop of [code_block]: one cell per line, each followed by the
    return to the text abscissa. *)
Fixpoint code_lines (x0 : Q) (lines : list string) (s : pdf) : result pdf :=
  match lines with
  | [] => Ok s
  | l :: ls =>
      s <- cell 0 4.2 l AlignL XLMARGIN YNEXT s ;;
      code_lines x0 ls (set_x (x0 + 3) s)
  end.

(** The height [h] that [code_block] measures for its border. *)
Definition code_height (code : string) : Q :=
  inject_Z (Z.of_nat (List.length (split_nl code))) * 4.2 + 4.

(** The test [get_y() + h > 270] is on exact rationals here.  The program
    makes it on floating-point numbers: a sum that is 270 up to rounding
    can fall on either side there, which the properties of [code_block]
    allow for by a band around 270. *)
Definition code_block (code : string) (s : pdf) : result pdf :=
  let s := set_font "Courier" "" 8 s in
  let s := set_fill_color 240 240 245 s in
  let s := set_text_color 40 40 40 s in
  let s := set_draw_color 200 200 210 s in
  let x0 := get_x s + 5 in
  let lines := split_nl code in
  let h := inject_Z (Z.of_nat (List.length lines)) * 4.2 + 4 in
  let s := if Qltb 270 (get_y s + h) then add_page s else s in
  let y0 := get_y s in
  s <- rect x0 y0 180 h "DF" s ;;
  let s := set_xy (x0 + 3) (y0 + 2) s in
  s <- code_lines x0 lines s ;;
  ln 3 s.

Definition bold_text (M : metrics) (label text : string) (s : pdf)
    : result pdf :=
  let s := set_font "Helvetica" "B" 10 s in
  let s := set_text_color 30 30 30 s in
  s <- cell (get_string_width M (font_family s) (font_style s)
               (font_size_pt s) label + 1)
            5.5 label AlignL XRIGHT YTOP s ;;
  let s := set_font "Helvetica" "" 10 s in
  multi_cell M 0 5.5 text s.

(** ** generate_report *)

(** The dot leader of one row of the table of contents. *)
Definition toc_dots (num title : string) : string :=
  str_mul "." (70 - len num - len title).

Definition toc_text (num title : string) (pg : Z) : string :=
  num ++ "  " ++ title ++ " " ++ toc_dots num title ++ " " ++ string_of_Z pg.

(** The body of the loop over [toc]. *)
Definition toc_row (num title : string) (pg : Z) (s : pdf) : result pdf :=
  let s := set_font "Helvetica"
             (if negb (String.prefix " " num) then "B" else "") 11 s in
  cell 0 6.5 (toc_text num title pg) AlignL XLMARGIN YNEXT s.

Definition toc : list (string * string * Z) :=
  [ ("1.", "Introduction", 3);
    ("2.", "Technologies employees", 4);
    ("3.", "Architecture du projet", 5);
    ("  3.1", "Structure des dossiers", 5);
    ("  3.2", "Le systeme ECS (Entity-Component-System)", 6);
    ("  3.3", "Separation Moteur / Jeu", 7);
    ("4.", "Modelisation UML", 8);
    ("  4.1", "Diagramme de classes (composants)", 8);
    ("  4.2", "Heritage et polymorphisme", 9);
    ("5.", "Les personnages", 10);
    ("  5.1", "Le joueur", 10);
    ("  5.2", "Les ennemis", 10);
    ("  5.3", "Les allies et PNJ", 11);
    ("6.", "Les objets et l'inventaire", 12);
    ("  6.1", "Types d'objets", 12);
    ("  6.2", "Potions et effets", 12);
    ("  6.3", "Armes et armures", 13);
    ("  6.4", "Equipement et anatomie", 13);
    ("7.", "Le systeme de combat", 14);
    ("8.", "Rencontres et interactions", 15);
    ("9.", "Surcharge d'operateurs", 16);
    ("10.", "Systeme de sauvegarde et chargement", 17);
    ("11.", "Generation procedurale du monde", 18);
    ("12.", "Intelligence artificielle (Utility AI)", 19);
    ("13.", "Conception data-driven (JSON)", 20);
    ("14.", "Compilation et execution", 21);
    ("15.", "Conclusion", 22) ]%Z.


(** The calls that [generate_report] makes on its [pdf], one constructor
    per method. *)
Inductive call : Type :=
| AddPage
| Ln (h : Q)
| SetFont (family style : string) (size : Z)
| SetTextColor (r g b : Z)
| SetDrawColor (r g b : Z)
| Cell (w h : Q) (txt : string) (align : Align) (new_x : XPos) (new_y : YPos)
| RuleAtY (x1 x2 : Q)
| ChapterTitle (title : string) (level : Z)
| BodyText (text : string)
| BulletPoint (text : string) (indent : Q)
| CodeBlock (code : string)
| BoldText (label text : string)
| TocRow (num title : string) (pg : Z).

Definition exec (M : metrics) (c : call) (s : pdf) : result pdf :=
  match c with
  | AddPage => Ok (add_page s)
  | Ln h => ln h s
  | SetFont f st sz => Ok (set_font f st sz s)
  | SetTextColor r g b => Ok (set_text_color r g b s)
  | SetDrawColor r g b => Ok (set_draw_color r g b s)
  | Cell w h txt al nx ny => cell w h txt al nx ny s
  | RuleAtY x1 x2 => line x1 (get_y s) x2 (get_y s) s
  | ChapterTitle t lv => chapter_title t lv s
  | BodyText t => body_text M t s
  | BulletPoint t i => bullet_point M t i s
  | CodeBlock c => code_block c s
  | BoldText l t => bold_text M l t s
  | TocRow n t p => toc_row n t p s
  end.

Fixpoint run (M : metrics) (cs : list call) (s : pdf) : result pdf :=
  match cs with
  | [] => Ok s
  | c :: cs' => s' <- exec M c s ;; run M cs' s'
  end.

(** The finished document: the number of pages and everything drawn. *)
Record document : Type := mkDocument {
  page_count : nat;
  content : list entry
}.

Definition resolve_prim (alias total : string) (p : prim) : prim :=
  match p with
  | Text tx ty w h txt al f st sz c =>
      Text tx ty w h (replace alias total txt) al f st sz c
  | _ => p
  end.

Definition resolve_entry (alias total : string) (e : entry) : entry :=
  mkEntry (on_page e) (origin e) (resolve_prim alias total (what e)).

(** [output]: a document without pages gets one; the last page receives
    its footer; then every occurrence of the alias is replaced by the
    number of pages. *)
Definition output (s : pdf) : document :=
  let s := if (page s =? 0)%nat then add_page s else s in
  let s := footer s in
  {| page_count := page s;
     content := map (resolve_entry (str_alias_nb_pages s)
                       (string_of_nat (page s))) (out s) |}.

(** The first lines of [generate_report]. *)
Definition report_pdf : pdf :=
  set_auto_page_break true 20 (alias_nb_pages "{nb}" new_pdf).

(** [generate_report] over an arbitrary sequence of content calls. *)
Definition generate (M : metrics) (cs : list call) : result document :=
  s <- run M cs report_pdf ;;
  Ok (output s).

(** * Vocabulary of the properties *)

Definition gray : rgb := (120, 120, 120)%Z.

Definition header_label (p : nat) : string :=
  "Page " ++ string_of_nat p ++ "/{nb}".

(** The three primitives of header() on page [p], the rule stroked in
    [dc]. *)
Definition header_block (label : string) (p : nat) (dc : rgb) : list entry :=
  [ mkEntry p Header
      (Text l_margin t_margin (page_w - r_margin - l_margin) 5
         "TP3 - Hexagone 2026 | Mathias Kowalski" AlignL
         "Helvetica" "I" 8 gray);
    mkEntry p Header
      (Text (l_margin + (page_w - r_margin - l_margin)) t_margin
         (page_w - r_margin - (l_margin + (page_w - r_margin - l_margin))) 5
         label AlignR "Helvetica" "I" 8 gray);
    mkEntry p Header (Line 10 13 200 13 dc) ].

(** The two primitives of footer() on page [p]. *)
Definition footer_block (p : nat) (dc : rgb) : list entry :=
  [ mkEntry p Footer
      (Line 10 (page_h + -15 - 2) 200 (page_h + -15 - 2) dc);
    mkEntry p Footer
      (Text l_margin (page_h + -15) (page_w - r_margin - l_margin) 10
         "Below - Console RPG | C++17 / ECS Architecture" AlignC
         "Helvetica" "I" 8 gray) ].

Definition furniture (p : nat) (dc : rgb) : list entry :=
  ((if (0 <? p)%nat then footer_block p dc else [])
   ++ header_block (header_label (S p)) (S p) dc)%list.

(** Where the content starts on a fresh page. *)
Definition top_of_content : Q := t_margin + 5 + 4.

Definition text_of (p : prim) : option string :=
  match p with
  | Text _ _ _ _ txt _ _ _ _ _ => Some txt
  | _ => None
  end.

(** The state in which a line is drawn: after the page break, if any. *)
Definition line_state (h : Q) (s : pdf) : pdf :=
  if will_page_break h s then perform_page_break s else s.

(** Every method changes the log in one of three ways: not at all, by one
    primitive drawn by the content code on the current page, or by a new
    page. *)
Inductive advances : pdf -> pdf -> Prop :=
| adv_same s s' :
    page s' = page s -> out s' = out s ->
    str_alias_nb_pages s' = str_alias_nb_pages s ->
    advances s s'
| adv_emit s p : advances s (emit Body p s)
| adv_page s : advances s (add_page s)
| adv_trans s1 s2 s3 : advances s1 s2 -> advances s2 s3 -> advances s1 s3.

(** The entries drawn by region [r] on page [p], in drawing order. *)
Definition on (p : nat) (r : region) (l : list entry) : list entry :=
  filter (fun e => (on_page e =? p)%nat && region_eqb (origin e) r) l.

(** Pages 1 to [page s] each carry the header once; all of them but the
    current one carry the footer once; no other page carries either. *)
Definition furnished (s : pdf) : Prop :=
  forall p,
    (exists dc, on p Header (out s)
                = if ((1 <=? p) && (p <=? page s))%nat
                  then header_block (header_label p) p dc else [])
    /\ (exists dc, on p Footer (out s)
                   = if ((1 <=? p) && (p <? page s))%nat
                     then footer_block p dc else []).

(** The pieces of a text cut at its newlines, as lines: every piece that
    a newline ends is marked so, and nothing follows a final newline. *)
Fixpoint mark_lines (pieces : list string) : list text_line :=
  match pieces with
  | [] => []
  | [l] => if String.eqb l "" then [] else [mkTextLine l false false]
  | l :: rest => mkTextLine l false true :: mark_lines rest
  end.

(** A toy font for the worked examples: every character 2 mm wide; a
    text is cut at its newlines and never wrapped, and a width that does
    not hold one character is refused. *)
Definition fixed_metrics : metrics :=
  {| get_string_width := fun _ _ _ t => 2 * inject_Z (len t);
     wrap_lines := fun _ _ _ w t =>
       if existsb (fun l => negb (String.eqb l "")) (split_nl t)
          && Qltb w 2
       then None
       else Some (mark_lines (split_nl t)) |}.

Fixpoint brace_free (s : string) : Prop :=
  match s with
  | EmptyString => True
  | String c s' => c <> "{"%char /\ brace_free s'
  end.

(** A finished log: each of the pages 1 to [n] carries the header once,
    labelled [label p], and the footer once; no other page carries
    either. *)
Definition complete (n : nat) (label : nat -> string) (l : list entry)
    : Prop :=
  forall p,
    (exists dc, on p Header l
                = if ((1 <=? p) && (p <=? n))%nat
                  then header_block (label p) p dc else [])
    /\ (exists dc, on p Footer l
                   = if ((1 <=? p) && (p <=? n))%nat
                     then footer_block p dc else []).

(** The claim of a reserved width: a render whose page count has more
    digits than [reserved] raises. *)
Definition raises_when_wider (reserved : nat) (M : metrics) (cs : list call)
    : Prop :=
  forall s, run M cs report_pdf = Ok s ->
    (reserved < String.length (string_of_nat (page_count (output s))))%nat ->
    exists e, generate M cs = Raise e.

(** Font family, weight, size and text colour. *)
Definition style_of (s : pdf) : string * string * Z * rgb :=
  (font_family s, font_style s, font_size_pt s, text_color s).

(** What a page break keeps: the font once one is set, the colours, and
    the settings of the automatic page break. *)
Definition same_graphics (s s' : pdf) : Prop :=
  style_of s' = style_of s
  /\ draw_color s' = draw_color s /\ fill_color s' = fill_color s
  /\ auto_page_break s' = auto_page_break s /\ b_margin s' = b_margin s.

(** A context in which text can be drawn: a page is open and a font is
    set. *)
Definition ready (s : pdf) : Prop := (0 < page s)%nat /\ font_family s <> "".

(** A step that keeps the style and never goes back a page. *)
Definition keeps (s s' : pdf) : Prop :=
  style_of s' = style_of s /\ (page s <= page s')%nat.

Definition text_style : string * string * Z * rgb :=
  ("Helvetica", "", 10%Z, (30, 30, 30)%Z).

Definition code_style : string * string * Z * rgb :=
  ("Courier", "", 8%Z, (40, 40, 40)%Z).

(** The start of the title page: page 1 open, Helvetica bold 28 in blue. *)
Definition title_state : pdf :=
  set_text_color 25 55 120
    (set_font "Helvetica" "B" 28 (ln_move 30 (add_page report_pdf))).


(** The same entry with its stroke colour, if it has one, set to [c]. *)
Definition with_stroke (c : rgb) (e : entry) : entry :=
  mkEntry (on_page e) (origin e)
    (match what e with
     | Line x1 y1 x2 y2 _ => Line x1 y1 x2 y2 c
     | Rect rx ry w h st _ fc => Rect rx ry w h st c fc
     | p => p
     end).

Definition black : rgb := (0, 0, 0)%Z.

(** The state after a first-level heading on page 1: the draw colour is
    the blue of the heading's underline. *)
Definition after_heading : result pdf :=
  run fixed_metrics [AddPage; ChapterTitle "Table des matieres" 1] report_pdf.

Definition nl : string := String newline "".

(** The colours [code_block] strokes and fills its border with. *)
Definition code_stroke : rgb := (200, 200, 210)%Z.
Definition code_fill : rgb := (240, 240, 245)%Z.

(** The context [code_block] works in once its font and colours are set. *)
Definition code_context (s : pdf) : pdf :=
  set_draw_color 200 200 210
    (set_text_color 40 40 40
       (set_fill_color 240 240 245 (set_font "Courier" "" 8 s))).

(** The context in which the border is drawn: on a new page when the
    block does not fit above 270. *)
Definition border_context (c : string) (s : pdf) : pdf :=
  if Qltb 270 (y s + code_height c)
  then add_page (code_context s) else code_context s.

(** Page 1 with the cursor at 250. *)
Definition low_on_page : pdf := ln_move 231 (add_page report_pdf).

Definition five_lines : string := String.concat nl ["1"; "2"; "3"; "4"; "5"].

(** The claim of a break decided at the trigger of the automatic page
    break. *)
Definition breaks_at_trigger (c : string) (s : pdf) : Prop :=
  forall s', code_block c s = Ok s' ->
    ((page s < page s')%nat <-> page_break_trigger s < y s + code_height c).

Definition prim_top (p : prim) : Q :=
  match p with
  | Text _ ty _ _ _ _ _ _ _ _ => ty
  | Line _ y1 _ _ _ => y1
  | Rect _ ry _ _ _ _ _ => ry
  end.

Definition prim_bottom (p : prim) : Q :=
  match p with
  | Text _ ty _ h _ _ _ _ _ _ => ty + h
  | Line _ _ _ y2 _ => y2
  | Rect _ ry _ h _ _ _ => ry + h
  end.

(** Drawn by the content code on page [pg], between the heights [top] and
    [bottom]. *)
Definition placed (pg : nat) (top bottom : Q) (e : entry) : Prop :=
  on_page e = pg /\ origin e = Body
  /\ top <= prim_top (what e) /\ prim_bottom (what e) <= bottom.

(** The height of [n] lines of code. *)
Definition lines_height (n : nat) : Q := inject_Z (Z.of_nat n) * 4.2.

(** The pages on which the content code drew between [s] and [s'], in
    drawing order. *)
Definition block_pages (s s' : pdf) : list nat :=
  map on_page
    (filter (fun e => region_eqb (origin e) Body)
       (skipn (List.length (out s)) (out s'))).

(** The claim of a block never split: whatever [code_block] draws for
    [c] lands on a single page. *)
Definition drawn_on_one_page (c : string) (s : pdf) : Prop :=
  forall s', code_block c s = Ok s' ->
    exists pg, Forall (fun p => p = pg) (block_pages s s').

Definition sixty_one_lines : string := String.concat nl (repeat "x" 61).

(** Abscissa, width and text of a drawn text line. *)
Definition box (e : entry) : option (Q * Q * string) :=
  match what e with
  | Text tx _ w _ txt _ _ _ _ _ => Some (tx, w, txt)
  | _ => None
  end.

(** The entries drawn by the content code. *)
Definition body (l : list entry) : list entry :=
  filter (fun e => region_eqb (origin e) Body) l.

(** The number of newline characters of a string. *)
Fixpoint count_nl (s : string) : nat :=
  match s with
  | EmptyString => O
  | String c s' => if Ascii.eqb c newline then S (count_nl s') else count_nl s'
  end.

(** An entry the resolution of the alias "{nb}" cannot touch: a rule, a
    rectangle, or a text without an opening brace. *)
Definition unaffected (e : entry) : Prop :=
  match what e with
  | Text _ _ _ _ txt _ _ _ _ _ => brace_free txt
  | _ => True
  end.

(** The test of the automatic page break, as a proposition. *)
Definition must_break (h : Q) (s : pdf) : Prop :=
  page_break_trigger s < y s + h /\ auto_page_break s = true.

(** The height of [n] lines of a paragraph or a bullet. *)
Definition para_height (n : nat) : Q := inject_Z (Z.of_nat n) * 5.5.


(** Page 1 of the report, just opened. *)
Definition first_page : pdf := add_page report_pdf.

(** The program adds heights in binary floating point, the model in exact
    rationals: where a sum is compared with a threshold, the two can
    disagree only if the exact sum lies within the rounding error of the
    threshold, which is far below [slack]. *)
Definition slack : Q := 0.001.







(** * Properties *)

(** ** What a new page adds to the log *)

Lemma footer_out (s : pdf) :
  out (footer s) = (out s ++ footer_block (page s) (draw_color s))%list.
Proof.
  destruct s; cbn -[page_h page_w]. rewrite <- app_assoc. reflexivity.
Qed.

Lemma footer_page (s : pdf) : page (footer s) = page s.
Proof. reflexivity. Qed.

Lemma add_page_out (s : pdf) :
  out (add_page s) = (out s ++ furniture (page s) (draw_color s))%list.
Proof.
  destruct s as [pg ? ? ? ? ? ? ? ? ? ? ? o].
  unfold add_page, furniture. cbn [page].
  destruct (0 <? pg)%nat;
    cbn -[page_h page_w string_of_nat]; rewrite <- ?app_assoc; reflexivity.
Qed.

Lemma add_page_page (s : pdf) : page (add_page s) = S (page s).
Proof. unfold add_page. destruct (0 <? page s)%nat; reflexivity. Qed.

Lemma add_page_y (s : pdf) : y (add_page s) = top_of_content.
Proof. unfold add_page. destruct (0 <? page s)%nat; reflexivity. Qed.

Lemma add_page_x (s : pdf) : x (add_page s) = l_margin.
Proof. unfold add_page. destruct (0 <? page s)%nat; reflexivity. Qed.

Lemma add_page_colors (s : pdf) :
  text_color (add_page s) = text_color s
  /\ draw_color (add_page s) = draw_color s
  /\ fill_color (add_page s) = fill_color s.
Proof. unfold add_page. destruct (0 <? page s)%nat; auto. Qed.

Lemma add_page_config (s : pdf) :
  auto_page_break (add_page s) = auto_page_break s
  /\ b_margin (add_page s) = b_margin s
  /\ str_alias_nb_pages (add_page s) = str_alias_nb_pages s.
Proof. unfold add_page. destruct (0 <? page s)%nat; auto. Qed.

(** A font that was set survives the header and the footer. *)
Lemma add_page_font (s : pdf) :
  font_family s <> "" ->
  font_family (add_page s) = font_family s
  /\ font_style (add_page s) = font_style s
  /\ font_size_pt (add_page s) = font_size_pt s.
Proof.
  intros Hf. apply String.eqb_neq in Hf.
  unfold add_page.
  destruct (0 <? page s)%nat; cbn; rewrite Hf; auto.
Qed.

(** From here on a new page is used through the lemmas above only. *)
#[global] Opaque add_page.

(** ** Lines of text *)

Lemma render_line_out w h txt al nx ny (s : pdf) :
  out (render_line w h txt al nx ny s)
  = (out (line_state h s)
     ++ [mkEntry (page (line_state h s)) Body
           (Text (x (line_state h s)) (y (line_state h s))
              (if Qeq_bool w 0
               then page_w - r_margin - x (line_state h s) else w)
              h txt al
              (font_family (line_state h s)) (font_style (line_state h s))
              (font_size_pt (line_state h s))
              (text_color (line_state h s)))])%list.
Proof. reflexivity. Qed.

Lemma repeat_string_length (c : ascii) (n : nat) :
  String.length (repeat_string (String c "") n) = n.
Proof. induction n as [|n IH]; cbn; [reflexivity | now rewrite IH]. Qed.

Lemma repeat_string_chars (c d : ascii) (n : nat) :
  In d (list_ascii_of_string (repeat_string (String c "") n)) -> d = c.
Proof.
  induction n as [|n IH]; cbn; [tauto | intros [H | H]; auto].
Qed.

Lemma toc_row_ok (num title : string) (pg : Z) (s : pdf) :
  (0 < page s)%nat ->
  toc_row num title pg s
  = Ok (render_line 0 6.5 (toc_text num title pg) AlignL XLMARGIN YNEXT
          (set_font "Helvetica"
             (if negb (String.prefix " " num) then "B" else "") 11 s)).
Proof.
  intros Hp. unfold toc_row, cell, check_page, check_font.
  cbn [page set_font font_family].
  apply Nat.ltb_lt in Hp. rewrite Hp. reflexivity.
Qed.

(** C5.  The row of the table of contents for number [num] and title
    [title] is drawn without failure on any open page; its text is the
    number, two spaces, the title, a space, the dot leader, a space and the
    page; the leader holds exactly max(0, 70 - len(num) - len(title))
    characters, all of them '.', and is empty once the two lengths reach
    70. *)
Theorem toc_dot_leader (num title : string) (pg : Z) (s : pdf) :
  (0 < page s)%nat ->
  exists s' pre e dots,
    toc_row num title pg s = Ok s'
    /\ out s' = (pre ++ [e])%list
    /\ origin e = Body
    /\ text_of (what e)
       = Some (num ++ "  " ++ title ++ " " ++ dots ++ " " ++ string_of_Z pg)
    /\ String.length dots
       = Z.to_nat (Z.max 0 (70 - len num - len title))
    /\ (forall c, In c (list_ascii_of_string dots) -> c = "."%char)
    /\ ((70 <= len num + len title)%Z -> dots = "").
Proof.
  intros Hp. rewrite (toc_row_ok num title pg s Hp).
  eexists. eexists. eexists. exists (toc_dots num title).
  split; [reflexivity |].
  split; [apply render_line_out |].
  split; [reflexivity |].
  split; [reflexivity |].
  unfold toc_dots, str_mul.
  destruct (70 - len num - len title <=? 0)%Z eqn:E.
  - apply Z.leb_le in E. repeat split.
    + rewrite Z.max_l by lia. reflexivity.
    + cbn. tauto.
  - apply Z.leb_gt in E. repeat split.
    + rewrite repeat_string_length, Z.max_r by lia. reflexivity.
    + intros c. apply repeat_string_chars.
    + lia.
Qed.

Lemma toc_dot_leader_witness :
  exists s' pre e dots,
    toc_row "1." "Introduction" 3 (add_page report_pdf) = Ok s'
    /\ out s' = (pre ++ [e])%list
    /\ origin e = Body
    /\ text_of (what e)
       = Some ("1." ++ "  " ++ "Introduction" ++ " " ++ dots ++ " "
               ++ string_of_Z 3)
    /\ String.length dots
       = Z.to_nat (Z.max 0 (70 - len "1." - len "Introduction"))
    /\ (forall c, In c (list_ascii_of_string dots) -> c = "."%char)
    /\ ((70 <= len "1." + len "Introduction")%Z -> dots = "").
Proof.
  apply (toc_dot_leader "1." "Introduction" 3 (add_page report_pdf)).
  vm_compute. lia.
Defined.

(** ** How the log grows *)

Create HintDb adv.
#[local] Hint Resolve adv_emit adv_page : adv.

Lemma adv_refl (s : pdf) : advances s s.
Proof. apply adv_same; reflexivity. Qed.

Lemma adv_with_xy nx ny (s : pdf) : advances s (with_xy nx ny s).
Proof. apply adv_same; reflexivity. Qed.

Lemma adv_set_font f st sz (s : pdf) : advances s (set_font f st sz s).
Proof. apply adv_same; reflexivity. Qed.

Lemma adv_set_text_color r g b (s : pdf) : advances s (set_text_color r g b s).
Proof. apply adv_same; reflexivity. Qed.

Lemma adv_set_draw_color r g b (s : pdf) : advances s (set_draw_color r g b s).
Proof. apply adv_same; reflexivity. Qed.

Lemma adv_set_fill_color r g b (s : pdf) : advances s (set_fill_color r g b s).
Proof. apply adv_same; reflexivity. Qed.

Lemma adv_set_x nx (s : pdf) : advances s (set_x nx s).
Proof. apply adv_same; reflexivity. Qed.

Lemma adv_set_xy nx ny (s : pdf) : advances s (set_xy nx ny s).
Proof. apply adv_same; reflexivity. Qed.

Lemma adv_ln_move h (s : pdf) : advances s (ln_move h s).
Proof. apply adv_same; reflexivity. Qed.

Lemma adv_cell_draw w h txt al nx ny (s : pdf) :
  advances s (cell_draw Body w h txt al nx ny s).
Proof.
  unfold cell_draw. eapply adv_trans; [apply adv_emit | apply adv_with_xy].
Qed.

Lemma adv_perform_page_break (s : pdf) : advances s (perform_page_break s).
Proof.
  unfold perform_page_break.
  eapply adv_trans; [apply adv_page | apply adv_with_xy].
Qed.

Lemma adv_render_line w h txt al nx ny (s : pdf) :
  advances s (render_line w h txt al nx ny s).
Proof.
  unfold render_line.
  eapply adv_trans; [| apply adv_cell_draw].
  destruct (will_page_break h s);
    [apply adv_perform_page_break | apply adv_refl].
Qed.

#[local] Hint Resolve adv_refl adv_with_xy adv_set_font adv_set_text_color
  adv_set_draw_color adv_set_fill_color adv_set_x adv_set_xy adv_ln_move
  adv_cell_draw adv_perform_page_break adv_render_line : adv.

Lemma bind_ok {A B : Type} (r : result A) (f : A -> result B) (b : B) :
  bind r f = Ok b -> exists a, r = Ok a /\ f a = Ok b.
Proof. destruct r as [a | e]; cbn; [eauto | discriminate]. Qed.

Lemma check_page_ok (s s' : pdf) :
  check_page s = Ok s' -> s' = s /\ (0 < page s)%nat.
Proof.
  unfold check_page. destruct (0 <? page s)%nat eqn:E; [| discriminate].
  intros H. injection H as <-. apply Nat.ltb_lt in E. auto.
Qed.

Lemma check_font_ok (s s' : pdf) :
  check_font s = Ok s' -> s' = s /\ font_family s <> "".
Proof.
  unfold check_font. destruct (String.eqb (font_family s) "") eqn:E;
    [discriminate |].
  intros H. injection H as <-. apply String.eqb_neq in E. auto.
Qed.

(** Splits a successful sequence of binds into its successful steps. *)
Ltac unbind H :=
  repeat match type of H with
  | bind _ _ = Ok _ =>
      let a := fresh "s" in
      let Ha := fresh "H" in
      apply bind_ok in H; destruct H as (a & Ha & H);
      try (apply check_page_ok in Ha; destruct Ha as [-> Ha]);
      try (apply check_font_ok in Ha; destruct Ha as [-> Ha])
  | Ok _ = Ok _ => injection H as <-
  end.

Lemma adv_cell w h txt al nx ny (s s' : pdf) :
  cell w h txt al nx ny s = Ok s' -> advances s s'.
Proof. unfold cell. intros H. unbind H. auto with adv. Qed.

Lemma adv_line x1 y1 x2 y2 (s s' : pdf) :
  line x1 y1 x2 y2 s = Ok s' -> advances s s'.
Proof. unfold line, line_draw. intros H. unbind H. auto with adv. Qed.

Lemma adv_rect rx ry w h st (s s' : pdf) :
  rect rx ry w h st s = Ok s' -> advances s s'.
Proof. unfold rect. intros H. unbind H. auto with adv. Qed.

Lemma adv_ln h (s s' : pdf) : ln h s = Ok s' -> advances s s'.
Proof. unfold ln. intros H. unbind H. auto with adv. Qed.

Lemma multi_cell_lines_cons w h (l l' : text_line) (ls : list text_line)
    (s : pdf) :
  multi_cell_lines w h (l :: l' :: ls) s
  = multi_cell_lines w h (l' :: ls)
      (render_line w h (line_text l) (line_align l) XLEFT YNEXT s).
Proof. reflexivity. Qed.

Lemma adv_multi_cell_lines w h (ls : list text_line) (s : pdf) :
  advances s (multi_cell_lines w h ls s).
Proof.
  revert s. induction ls as [| l ls IH]; intros s; [apply adv_refl |].
  destruct ls as [| l' ls'].
  - apply adv_render_line.
  - rewrite multi_cell_lines_cons.
    eapply adv_trans; [apply adv_render_line | apply IH].
Qed.

Lemma text_lines_ok (M : metrics) (s : pdf) (w : Q) (txt : string)
    (lines : list text_line) :
  text_lines M s w txt = Ok lines ->
  exists ls,
    wrap_lines M (font_family s) (font_style s) (font_size_pt s) w txt
    = Some ls
    /\ lines = at_least_one ls.
Proof.
  unfold text_lines.
  destruct (wrap_lines M _ _ _ w txt) as [ls |]; [| discriminate].
  intros H. injection H as <-. eauto.
Qed.

Lemma adv_render_text w h (ls : list text_line) (s : pdf) :
  advances s (render_text w h ls s).
Proof.
  unfold render_text.
  eapply adv_trans; [apply adv_multi_cell_lines |].
  destruct (ends_with_nl ls); [apply adv_ln_move | apply adv_refl].
Qed.

Lemma adv_multi_cell M w h txt (s s' : pdf) :
  multi_cell M w h txt s = Ok s' -> advances s s'.
Proof.
  unfold multi_cell. intros H. unbind H. apply adv_render_text.
Qed.

Lemma adv_code_lines x0 (ls : list string) (s s' : pdf) :
  code_lines x0 ls s = Ok s' -> advances s s'.
Proof.
  revert s. induction ls as [| l ls IH]; intros s H; cbn in H.
  - injection H as <-. apply adv_refl.
  - unbind H. apply IH in H. apply adv_cell in H0.
    eapply adv_trans; [exact H0 |].
    eapply adv_trans; [apply adv_set_x | exact H].
Qed.

(** Chains the steps of a method that returned normally. *)
Ltac adv_same_tac := apply adv_same; reflexivity.

Ltac adv_chain :=
  repeat match goal with
  | H : cell _ _ _ _ _ _ _ = Ok _ |- _ => apply adv_cell in H
  | H : line _ _ _ _ _ = Ok _ |- _ => apply adv_line in H
  | H : rect _ _ _ _ _ _ = Ok _ |- _ => apply adv_rect in H
  | H : ln _ _ = Ok _ |- _ => apply adv_ln in H
  | H : multi_cell _ _ _ _ _ = Ok _ |- _ => apply adv_multi_cell in H
  | H : code_lines _ _ _ = Ok _ |- _ => apply adv_code_lines in H
  end;
  repeat match goal with
  | H : advances ?a ?b |- advances ?c ?t =>
      lazymatch t with context [b] => idtac end;
      apply (adv_trans c b t);
      [ apply (adv_trans c a b); [clear H | exact H] | adv_same_tac ]
  end;
  try adv_same_tac.

Lemma adv_chapter_title t lv (s s' : pdf) :
  chapter_title t lv s = Ok s' -> advances s s'.
Proof.
  unfold chapter_title. intros H.
  destruct (lv =? 1)%Z; [| destruct (lv =? 2)%Z; [| destruct (lv =? 3)%Z]];
    unbind H; adv_chain.
Qed.

Lemma adv_body_text M t (s s' : pdf) : body_text M t s = Ok s' -> advances s s'.
Proof. unfold body_text. intros H. unbind H. adv_chain. Qed.

Lemma adv_bullet_point M t i (s s' : pdf) :
  bullet_point M t i s = Ok s' -> advances s s'.
Proof. unfold bullet_point. intros H. adv_chain. Qed.

Lemma adv_bold_text M l t (s s' : pdf) :
  bold_text M l t s = Ok s' -> advances s s'.
Proof. unfold bold_text. intros H. unbind H. adv_chain. Qed.

Lemma adv_code_block c (s s' : pdf) : code_block c s = Ok s' -> advances s s'.
Proof.
  unfold code_block. intros H. unbind H. adv_chain.
  destruct (Qltb 270 _); [| adv_same_tac].
  eapply adv_trans; [| apply adv_page]. adv_same_tac.
Qed.

Lemma adv_toc_row n t p (s s' : pdf) : toc_row n t p s = Ok s' -> advances s s'.
Proof. unfold toc_row. intros H. adv_chain. Qed.

Lemma adv_exec M c (s s' : pdf) : exec M c s = Ok s' -> advances s s'.
Proof.
  destruct c; cbn [exec]; intros H;
    try (injection H as <-; first [apply adv_page | adv_same_tac]; fail).
  - now apply adv_ln in H.
  - now apply adv_cell in H.
  - now apply adv_line in H.
  - now apply adv_chapter_title in H.
  - now apply adv_body_text in H.
  - now apply adv_bullet_point in H.
  - now apply adv_code_block in H.
  - now apply adv_bold_text in H.
  - now apply adv_toc_row in H.
Qed.

Lemma adv_run M (cs : list call) (s s' : pdf) :
  run M cs s = Ok s' -> advances s s'.
Proof.
  revert s. induction cs as [| c cs IH]; intros s H; cbn in H.
  - injection H as <-. apply adv_refl.
  - unbind H. eapply adv_trans; [eapply adv_exec; eassumption | eauto].
Qed.

(** ** Headers and footers in the log *)

Lemma on_app p r (l1 l2 : list entry) :
  on p r (l1 ++ l2)%list = (on p r l1 ++ on p r l2)%list.
Proof. apply filter_app. Qed.

Lemma on_header_furniture (p pg : nat) (dc : rgb) :
  on p Header (furniture pg dc)
  = if (p =? S pg)%nat
    then header_block (header_label (S pg)) (S pg) dc else [].
Proof.
  unfold furniture. rewrite on_app.
  assert (on p Header (if (0 <? pg)%nat then footer_block pg dc else []) = [])
    as ->.
  { destruct (0 <? pg)%nat; cbn; [| reflexivity].
    now rewrite !andb_false_r. }
  cbn -[Nat.eqb header_label]. rewrite (Nat.eqb_sym p (S pg)).
  destruct (S pg =? p)%nat; reflexivity.
Qed.

Lemma on_footer_furniture (p pg : nat) (dc : rgb) :
  on p Footer (furniture pg dc)
  = if ((0 <? pg) && (p =? pg))%nat then footer_block pg dc else [].
Proof.
  unfold furniture. rewrite on_app.
  assert (on p Footer (header_block (header_label (S pg)) (S pg) dc) = [])
    as ->.
  { cbn -[Nat.eqb header_label]. now rewrite !andb_false_r. }
  rewrite app_nil_r.
  destruct (0 <? pg)%nat; cbn -[Nat.eqb page_h page_w]; [| reflexivity].
  rewrite (Nat.eqb_sym p pg). destruct (pg =? p)%nat; reflexivity.
Qed.

Lemma on_footer_block (p q : nat) (dc : rgb) :
  on p Footer (footer_block q dc)
  = if (p =? q)%nat then footer_block q dc else [].
Proof.
  cbn -[Nat.eqb page_h page_w]. rewrite (Nat.eqb_sym p q).
  destruct (q =? p)%nat; reflexivity.
Qed.

Lemma on_header_footer_block (p q : nat) (dc : rgb) :
  on p Header (footer_block q dc) = [].
Proof. cbn. now rewrite !andb_false_r. Qed.

Lemma furnished_new : furnished report_pdf.
Proof.
  intros p. split; exists (0, 0, 0)%Z; cbn [report_pdf page out on filter
    set_auto_page_break alias_nb_pages new_pdf].
  - destruct p; reflexivity.
  - destruct p; reflexivity.
Qed.

Lemma furnished_emit (s : pdf) (p : prim) :
  furnished s -> furnished (emit Body p s).
Proof.
  intros F q. destruct (F q) as [[dh Hh] [df Hf]].
  split; [exists dh | exists df]; cbn [out emit page]; rewrite on_app;
    cbn [on filter origin region_eqb]; rewrite andb_false_r, app_nil_r;
    assumption.
Qed.

Lemma furnished_add_page (s : pdf) : furnished s -> furnished (add_page s).
Proof.
  intros F q. destruct (F q) as [[dh Hh] [df Hf]].
  rewrite add_page_out, add_page_page, !on_app,
    on_header_furniture, on_footer_furniture, Hh, Hf.
  split.
  - destruct (q =? S (page s))%nat eqn:E.
    + apply Nat.eqb_eq in E. subst q. exists (draw_color s).
      replace (S (page s) <=? page s)%nat with false
        by (symmetry; apply Nat.leb_gt; lia).
      rewrite Nat.leb_refl, andb_false_r. reflexivity.
    + apply Nat.eqb_neq in E. exists dh. rewrite app_nil_r.
      replace (q <=? S (page s))%nat with (q <=? page s)%nat; [reflexivity |].
      destruct (Nat.leb_spec q (page s)); symmetry;
        [apply Nat.leb_le | apply Nat.leb_gt]; lia.
  - destruct (q =? page s)%nat eqn:E.
    + apply Nat.eqb_eq in E. subst q. exists (draw_color s).
      rewrite Nat.ltb_irrefl, andb_false_r.
      replace (page s <? S (page s))%nat with true
        by (symmetry; apply Nat.ltb_lt; lia).
      rewrite !andb_true_r. reflexivity.
    + apply Nat.eqb_neq in E. exists df.
      rewrite andb_false_r, app_nil_r.
      replace (q <? S (page s))%nat with (q <? page s)%nat; [reflexivity |].
      destruct (Nat.ltb_spec q (page s)); symmetry;
        [apply Nat.ltb_lt | apply Nat.ltb_ge]; lia.
Qed.

Lemma furnished_adv (s s' : pdf) :
  advances s s' -> furnished s -> furnished s'.
Proof.
  induction 1 as [s s' Hp Ho _ | s p | s | s1 s2 s3 _ IH1 _ IH2]; intros F.
  - intros q. rewrite Hp, Ho. apply F.
  - now apply furnished_emit.
  - now apply furnished_add_page.
  - auto.
Qed.

Lemma alias_adv (s s' : pdf) :
  advances s s' -> str_alias_nb_pages s' = str_alias_nb_pages s.
Proof.
  induction 1 as [s s' _ _ Ha | s p | s | s1 s2 s3 _ IH1 _ IH2].
  - exact Ha.
  - reflexivity.
  - apply add_page_config.
  - congruence.
Qed.

Lemma page_adv (s s' : pdf) : advances s s' -> (page s <= page s')%nat.
Proof.
  induction 1 as [s s' Hp _ _ | s p | s | s1 s2 s3 _ IH1 _ IH2].
  - rewrite Hp. lia.
  - cbn. lia.
  - rewrite add_page_page. lia.
  - lia.
Qed.

(** C4.  After any sequence of content calls that returns normally, every
    page from 1 to the current one carries, from header(), exactly the
    running title, then the label "Page p/{nb}" with p the number of that
    page and "{nb}" the registered total-page alias, then the rule from
    (10,13) to (200,13), in this order. *)
Theorem header_on_every_page (M : metrics) (cs : list call) (s : pdf)
    (p : nat) :
  run M cs report_pdf = Ok s ->
  (1 <= p <= page s)%nat ->
  str_alias_nb_pages s = "{nb}"
  /\ exists dc,
       on p Header (out s)
       = [ mkEntry p Header
             (Text l_margin t_margin (page_w - r_margin - l_margin) 5
                "TP3 - Hexagone 2026 | Mathias Kowalski" AlignL
                "Helvetica" "I" 8 (120, 120, 120)%Z);
           mkEntry p Header
             (Text (l_margin + (page_w - r_margin - l_margin)) t_margin
                (page_w - r_margin
                 - (l_margin + (page_w - r_margin - l_margin))) 5
                ("Page " ++ string_of_nat p ++ "/{nb}") AlignR
                "Helvetica" "I" 8 (120, 120, 120)%Z);
           mkEntry p Header (Line 10 13 200 13 dc) ].
Proof.
  intros Hrun Hp. apply adv_run in Hrun.
  split; [rewrite (alias_adv _ _ Hrun); reflexivity |].
  destruct (furnished_adv _ _ Hrun furnished_new p) as [[dc Hh] _].
  exists dc. rewrite Hh.
  replace ((1 <=? p) && (p <=? page s))%nat with true; [reflexivity |].
  symmetry. apply andb_true_iff. split; apply Nat.leb_le; lia.
Qed.

Lemma header_on_every_page_witness :
  str_alias_nb_pages (add_page (add_page report_pdf)) = "{nb}"
  /\ exists dc,
       on 2 Header (out (add_page (add_page report_pdf)))
       = [ mkEntry 2 Header
             (Text l_margin t_margin (page_w - r_margin - l_margin) 5
                "TP3 - Hexagone 2026 | Mathias Kowalski" AlignL
                "Helvetica" "I" 8 (120, 120, 120)%Z);
           mkEntry 2 Header
             (Text (l_margin + (page_w - r_margin - l_margin)) t_margin
                (page_w - r_margin
                 - (l_margin + (page_w - r_margin - l_margin))) 5
                ("Page " ++ string_of_nat 2 ++ "/{nb}") AlignR
                "Helvetica" "I" 8 (120, 120, 120)%Z);
           mkEntry 2 Header (Line 10 13 200 13 dc) ].
Proof.
  apply (header_on_every_page fixed_metrics [AddPage; AddPage]
           (add_page (add_page report_pdf)) 2).
  - reflexivity.
  - vm_compute. lia.
Defined.

(** ** Resolving the total-page alias *)

Lemma string_of_uint_brace_free (d : uint) :
  brace_free (NilEmpty.string_of_uint d).
Proof.
  induction d; cbn; try exact I; (split; [discriminate | assumption]).
Qed.

Lemma append_empty_r (s : string) : s ++ "" = s.
Proof. induction s as [| c s IH]; cbn; [reflexivity | now rewrite IH]. Qed.

Lemma replace_from_brace_free (total s rest : string) :
  brace_free s ->
  replace_from "{nb}" total (s ++ rest) 0
  = s ++ replace_from "{nb}" total rest 0.
Proof.
  induction s as [| c s IH]; intros Hs; [reflexivity |].
  destruct Hs as [Hc Hs].
  cbn [append replace_from String.prefix].
  destruct (ascii_dec "{" c) as [E | _]; [congruence |].
  now rewrite IH.
Qed.

Lemma replace_header_label (total : string) (p : nat) :
  replace "{nb}" total (header_label p)
  = "Page " ++ string_of_nat p ++ "/" ++ total.
Proof.
  unfold header_label, replace.
  change (replace_from "{nb}" total ("Page " ++ string_of_nat p ++ "/{nb}") 0)
    with ("Page " ++ replace_from "{nb}" total (string_of_nat p ++ "/{nb}") 0).
  rewrite replace_from_brace_free by apply string_of_uint_brace_free.
  cbn. now rewrite append_empty_r.
Qed.

Lemma on_resolve (a t : string) (p : nat) (r : region) (l : list entry) :
  on p r (map (resolve_entry a t) l) = map (resolve_entry a t) (on p r l).
Proof. unfold on. now rewrite filter_map_swap. Qed.

Lemma resolve_header_block (t lbl : string) (p : nat) (dc : rgb) :
  map (resolve_entry "{nb}" t) (header_block lbl p dc)
  = header_block (replace "{nb}" t lbl) p dc.
Proof. reflexivity. Qed.

Lemma resolve_footer_block (t : string) (p : nat) (dc : rgb) :
  map (resolve_entry "{nb}" t) (footer_block p dc) = footer_block p dc.
Proof. reflexivity. Qed.

Lemma furnished_footer (s : pdf) :
  furnished s -> (1 <= page s)%nat ->
  complete (page s) header_label (out (footer s)).
Proof.
  intros F Hp q. destruct (F q) as [[dh Hh] [df Hf]].
  rewrite footer_out, !on_app, on_header_footer_block, on_footer_block,
    app_nil_r, Hh, Hf.
  split; [exists dh; reflexivity |].
  destruct (q =? page s)%nat eqn:E.
  - apply Nat.eqb_eq in E. subst q. exists (draw_color s).
    rewrite Nat.ltb_irrefl, Nat.leb_refl, andb_false_r, andb_true_r.
    replace (1 <=? page s)%nat with true
      by (symmetry; apply Nat.leb_le; lia).
    reflexivity.
  - apply Nat.eqb_neq in E. exists df. rewrite app_nil_r.
    replace (q <=? page s)%nat with (q <? page s)%nat; [reflexivity |].
    destruct (Nat.ltb_spec q (page s)); symmetry;
      [apply Nat.leb_le | apply Nat.leb_gt]; lia.
Qed.

Lemma output_complete (s : pdf) :
  furnished s -> str_alias_nb_pages s = "{nb}" ->
  (1 <= page_count (output s))%nat
  /\ complete (page_count (output s))
       (fun p => "Page " ++ string_of_nat p ++ "/"
                 ++ string_of_nat (page_count (output s)))
       (content (output s)).
Proof.
  intros F Ha.
  set (s0 := if (page s =? 0)%nat then add_page s else s).
  assert (F0 : furnished s0).
  { unfold s0. destruct (page s =? 0)%nat;
      [now apply furnished_add_page | assumption]. }
  assert (H0 : (1 <= page s0)%nat).
  { unfold s0. destruct (page s =? 0)%nat eqn:E.
    - rewrite add_page_page. lia.
    - apply Nat.eqb_neq in E. lia. }
  assert (A0 : str_alias_nb_pages s0 = "{nb}").
  { unfold s0. destruct (page s =? 0)%nat; [| assumption].
    now rewrite (proj2 (proj2 (add_page_config s))). }
  change (output s)
    with {| page_count := page (footer s0);
            content := map (resolve_entry (str_alias_nb_pages (footer s0))
                              (string_of_nat (page (footer s0))))
                           (out (footer s0)) |}.
  cbn [page_count content]. rewrite footer_page.
  change (str_alias_nb_pages (footer s0)) with (str_alias_nb_pages s0).
  rewrite A0. split; [assumption |].
  intros q. destruct (furnished_footer s0 F0 H0 q) as [[dh Hh] [df Hf]].
  rewrite !on_resolve, Hh, Hf.
  split; [exists dh | exists df];
    destruct ((1 <=? q) && (q <=? page s0))%nat; try reflexivity.
  now rewrite resolve_header_block, replace_header_label.
Qed.

Lemma generate_ok (M : metrics) (cs : list call) (doc : document) :
  generate M cs = Ok doc ->
  exists s, run M cs report_pdf = Ok s /\ doc = output s.
Proof.
  unfold generate. intros H. unbind H. eauto.
Qed.

Lemma generate_complete (M : metrics) (cs : list call) (doc : document) :
  generate M cs = Ok doc ->
  (1 <= page_count doc)%nat
  /\ complete (page_count doc)
       (fun p => "Page " ++ string_of_nat p ++ "/"
                 ++ string_of_nat (page_count doc))
       (content doc).
Proof.
  intros H. apply generate_ok in H. destruct H as (s & Hrun & ->).
  apply adv_run in Hrun. apply output_complete.
  - exact (furnished_adv _ _ Hrun furnished_new).
  - rewrite (alias_adv _ _ Hrun). reflexivity.
Qed.

Lemma in_range_true (p n : nat) :
  (1 <= p <= n)%nat -> ((1 <=? p) && (p <=? n))%nat = true.
Proof. intros H. apply andb_true_iff. split; apply Nat.leb_le; lia. Qed.

Lemma in_range_false (p n : nat) :
  ~ (1 <= p <= n)%nat -> ((1 <=? p) && (p <=? n))%nat = false.
Proof.
  intros H. apply andb_false_iff.
  destruct (Nat.leb_spec 1 p); [right | left; reflexivity].
  apply Nat.leb_gt. lia.
Qed.

(** C6.  In the finished document there is at least one page; each page
    from 1 to the page count carries exactly one header (title, label,
    rule) and exactly one footer (rule, caption); no other page carries
    either; and the footer sits at the same height on every page: its rule
    at 17 mm and its caption at 15 mm above the bottom edge of the page,
    whatever the content drew. *)
Theorem one_header_one_footer (M : metrics) (cs : list call)
    (doc : document) :
  generate M cs = Ok doc ->
  (1 <= page_count doc)%nat
  /\ (forall p, (1 <= p <= page_count doc)%nat ->
        (exists lbl dc, on p Header (content doc) = header_block lbl p dc)
        /\ (exists dc,
              on p Footer (content doc)
              = [ mkEntry p Footer
                    (Line 10 (page_h + -15 - 2) 200 (page_h + -15 - 2) dc);
                  mkEntry p Footer
                    (Text l_margin (page_h + -15)
                       (page_w - r_margin - l_margin) 10
                       "Below - Console RPG | C++17 / ECS Architecture"
                       AlignC "Helvetica" "I" 8 (120, 120, 120)%Z) ]))
  /\ (forall p, ~ (1 <= p <= page_count doc)%nat ->
        on p Header (content doc) = [] /\ on p Footer (content doc) = []).
Proof.
  intros H. apply generate_complete in H. destruct H as [H1 HC].
  split; [assumption |]. split; intros p Hp.
  - destruct (HC p) as [[dh Hh] [df Hf]].
    rewrite in_range_true in Hh, Hf by assumption. eauto.
  - destruct (HC p) as [[dh Hh] [df Hf]].
    rewrite in_range_false in Hh, Hf by assumption. auto.
Qed.

Lemma one_header_one_footer_witness :
  let doc := output (add_page (add_page report_pdf)) in
  (1 <= page_count doc)%nat
  /\ (forall p, (1 <= p <= page_count doc)%nat ->
        (exists lbl dc, on p Header (content doc) = header_block lbl p dc)
        /\ (exists dc,
              on p Footer (content doc)
              = [ mkEntry p Footer
                    (Line 10 (page_h + -15 - 2) 200 (page_h + -15 - 2) dc);
                  mkEntry p Footer
                    (Text l_margin (page_h + -15)
                       (page_w - r_margin - l_margin) 10
                       "Below - Console RPG | C++17 / ECS Architecture"
                       AlignC "Helvetica" "I" 8 (120, 120, 120)%Z) ]))
  /\ (forall p, ~ (1 <= p <= page_count doc)%nat ->
        on p Header (content doc) = [] /\ on p Footer (content doc) = []).
Proof.
  intros doc.
  apply (one_header_one_footer fixed_metrics [AddPage; AddPage] doc).
  reflexivity.
Defined.

(** C2, as the code has it.  Whenever the content calls return normally,
    the render returns a document: resolving the alias never raises.  In
    that document the label of the header of every page p reads
    "Page p/N" with N the decimal numeral of the page count, written in
    full whatever its length; no width is reserved for it. *)
Theorem total_pages_resolved (M : metrics) (cs : list call) (s : pdf) :
  run M cs report_pdf = Ok s ->
  exists doc,
    generate M cs = Ok doc
    /\ (1 <= page_count doc)%nat
    /\ forall p, (1 <= p <= page_count doc)%nat ->
         exists dc,
           on p Header (content doc)
           = header_block
               ("Page " ++ string_of_nat p ++ "/"
                ++ string_of_nat (page_count doc)) p dc.
Proof.
  intros Hrun. exists (output s).
  assert (G : generate M cs = Ok (output s))
    by (unfold generate; now rewrite Hrun).
  split; [exact G |].
  apply generate_complete in G. destruct G as [H1 HC].
  split; [assumption |]. intros p Hp.
  destruct (HC p) as [[dh Hh] _].
  rewrite in_range_true in Hh by assumption. eauto.
Qed.

Lemma total_pages_resolved_witness :
  exists doc,
    generate fixed_metrics [AddPage; AddPage] = Ok doc
    /\ (1 <= page_count doc)%nat
    /\ forall p, (1 <= p <= page_count doc)%nat ->
         exists dc,
           on p Header (content doc)
           = header_block
               ("Page " ++ string_of_nat p ++ "/"
                ++ string_of_nat (page_count doc)) p dc.
Proof.
  apply (total_pages_resolved fixed_metrics [AddPage; AddPage]
           (add_page (add_page report_pdf))).
  reflexivity.
Defined.

(** C2, counterexample.  A document of 150 pages, against a reservation of
    two digits: the render returns normally, and the header of page 1 reads
    "Page 1/150". *)
Lemma total_pages_150_not_refused :
  ~ raises_when_wider 2 fixed_metrics (repeat AddPage 150)
  /\ exists doc,
       generate fixed_metrics (repeat AddPage 150) = Ok doc
       /\ page_count doc = 150%nat
       /\ on 1 Header (content doc)
          = header_block "Page 1/150" 1 (0, 0, 0)%Z.
Proof.
  assert (G : exists doc,
             generate fixed_metrics (repeat AddPage 150) = Ok doc
             /\ page_count doc = 150%nat
             /\ on 1 Header (content doc)
                = header_block "Page 1/150" 1 (0, 0, 0)%Z).
  { eexists. split; [reflexivity |]. split; vm_compute; reflexivity. }
  split; [| exact G].
  intros C. destruct G as (doc & G & Hn & _).
  destruct (generate_ok _ _ _ G) as (s & Hrun & Hd).
  destruct (C s Hrun) as [e He].
  - rewrite <- Hd, Hn. vm_compute. lia.
  - rewrite G in He. discriminate.
Qed.

(** ** Methods that return normally *)

Lemma check_page_pos (s : pdf) : (0 < page s)%nat -> check_page s = Ok s.
Proof.
  intros H. unfold check_page. apply Nat.ltb_lt in H. now rewrite H.
Qed.

Lemma check_font_set (s : pdf) : font_family s <> "" -> check_font s = Ok s.
Proof.
  intros H. unfold check_font. apply String.eqb_neq in H. now rewrite H.
Qed.

Lemma cell_ok w h txt al nx ny (s : pdf) :
  (0 < page s)%nat -> font_family s <> "" ->
  cell w h txt al nx ny s = Ok (render_line w h txt al nx ny s).
Proof.
  intros Hp Hf. unfold cell.
  rewrite check_page_pos by assumption. cbn [bind].
  now rewrite check_font_set by assumption.
Qed.

Lemma ln_ok h (s : pdf) : (0 < page s)%nat -> ln h s = Ok (ln_move h s).
Proof. intros Hp. unfold ln. now rewrite check_page_pos by assumption. Qed.

Lemma line_ok x1 y1 x2 y2 (s : pdf) :
  (0 < page s)%nat -> line x1 y1 x2 y2 s = Ok (line_draw Body x1 y1 x2 y2 s).
Proof. intros Hp. unfold line. now rewrite check_page_pos by assumption. Qed.

Lemma rect_ok rx ry w h st (s : pdf) :
  (0 < page s)%nat ->
  rect rx ry w h st s
  = Ok (emit Body (Rect rx ry w h st (draw_color s) (fill_color s)) s).
Proof. intros Hp. unfold rect. now rewrite check_page_pos by assumption. Qed.

(** [multi_cell] on an open page with a font set: the breaker's lines
    are rendered, or its exception is raised. *)
Lemma multi_cell_some M w h txt (s : pdf) (ls : list text_line) :
  (0 < page s)%nat -> font_family s <> "" ->
  wrap_lines M (font_family s) (font_style s) (font_size_pt s)
    (if Qeq_bool w 0 then page_w - r_margin - x s else w) txt = Some ls ->
  multi_cell M w h txt s
  = Ok (render_text (if Qeq_bool w 0 then page_w - r_margin - x s else w) h
          (at_least_one ls) s).
Proof.
  intros Hp Hf Hw. unfold multi_cell.
  rewrite check_page_pos by assumption. cbn [bind].
  rewrite check_font_set by assumption. cbn [bind].
  unfold text_lines. now rewrite Hw.
Qed.


Lemma adv_extends (s s' : pdf) :
  advances s s' -> exists d, out s' = (out s ++ d)%list.
Proof.
  induction 1 as [s s' _ Ho _ | s p | s | s1 s2 s3 _ IH1 _ IH2].
  - exists []. now rewrite app_nil_r.
  - eexists. reflexivity.
  - eexists. apply add_page_out.
  - destruct IH1 as [d1 H1], IH2 as [d2 H2]. exists (d1 ++ d2)%list.
    now rewrite H2, H1, app_assoc.
Qed.

(** ** The style a method leaves behind *)

Lemma same_graphics_refl (s : pdf) : same_graphics s s.
Proof. repeat split. Qed.

Lemma same_graphics_trans (s1 s2 s3 : pdf) :
  same_graphics s1 s2 -> same_graphics s2 s3 -> same_graphics s1 s3.
Proof.
  unfold same_graphics. intros (A & B & C & D & E) (A' & B' & C' & D' & E').
  repeat split; congruence.
Qed.

Lemma same_graphics_font (s s' : pdf) :
  same_graphics s s' -> font_family s <> "" -> font_family s' <> "".
Proof.
  intros (A & _) Hf. unfold style_of in A. injection A as A _ _ _. congruence.
Qed.

Lemma same_graphics_with_xy nx ny (s : pdf) :
  same_graphics s (with_xy nx ny s).
Proof. repeat split. Qed.

Lemma same_graphics_cell_draw r w h txt al nx ny (s : pdf) :
  same_graphics s (cell_draw r w h txt al nx ny s).
Proof. repeat split. Qed.

Lemma add_page_graphics (s : pdf) :
  font_family s <> "" -> same_graphics s (add_page s).
Proof.
  intros Hf. destruct (add_page_font s Hf) as (A & B & C).
  destruct (add_page_colors s) as (D & E & F).
  destruct (add_page_config s) as (G & H & _).
  unfold same_graphics, style_of. rewrite A, B, C, D. auto.
Qed.

Lemma render_line_graphics w h txt al nx ny (s : pdf) :
  font_family s <> "" -> same_graphics s (render_line w h txt al nx ny s).
Proof.
  intros Hf. unfold render_line.
  destruct (will_page_break h s).
  - eapply same_graphics_trans; [exact (add_page_graphics s Hf) |].
    unfold perform_page_break.
    eapply same_graphics_trans;
      [apply same_graphics_with_xy | apply same_graphics_cell_draw].
  - apply same_graphics_cell_draw.
Qed.

Lemma multi_cell_lines_graphics w h (ls : list text_line) (s : pdf) :
  font_family s <> "" -> same_graphics s (multi_cell_lines w h ls s).
Proof.
  revert s. induction ls as [| l ls IH]; intros s Hf;
    [apply same_graphics_refl |].
  destruct ls as [| l' ls'].
  - now apply render_line_graphics.
  - rewrite multi_cell_lines_cons.
    pose proof (render_line_graphics w h (line_text l) (line_align l)
                  XLEFT YNEXT s Hf) as G.
    eapply same_graphics_trans; [exact G |].
    apply IH. eapply same_graphics_font; eassumption.
Qed.

Lemma render_text_graphics w h (ls : list text_line) (s : pdf) :
  font_family s <> "" -> same_graphics s (render_text w h ls s).
Proof.
  intros Hf. unfold render_text.
  pose proof (multi_cell_lines_graphics w h ls s Hf) as G.
  destruct (ends_with_nl ls); [| exact G].
  eapply same_graphics_trans; [exact G | apply same_graphics_with_xy].
Qed.

Lemma render_line_page w h txt al nx ny (s : pdf) :
  (page s <= page (render_line w h txt al nx ny s))%nat.
Proof. apply page_adv, adv_render_line. Qed.

(** The loop of [code_block] runs to its end on an open page with a font
    set. *)
Lemma code_lines_ok x0 (ls : list string) (s : pdf) :
  (0 < page s)%nat -> font_family s <> "" ->
  exists s', code_lines x0 ls s = Ok s' /\ same_graphics s s'.
Proof.
  revert s. induction ls as [| l ls IH]; intros s Hp Hf; cbn [code_lines].
  - exists s. split; [reflexivity | apply same_graphics_refl].
  - rewrite cell_ok by assumption. cbn [bind].
    set (s1 := render_line 0 4.2 l AlignL XLMARGIN YNEXT s).
    assert (G1 : same_graphics s s1) by now apply render_line_graphics.
    assert (P1 : (0 < page s1)%nat).
    { pose proof (render_line_page 0 4.2 l AlignL XLMARGIN YNEXT s).
      fold s1 in H. lia. }
    destruct (IH (set_x (x0 + 3) s1)) as (s' & Hs' & G').
    + exact P1.
    + exact (same_graphics_font _ _ G1 Hf).
    + exists s'. split; [exact Hs' |].
      eapply same_graphics_trans; [exact G1 | exact G'].
Qed.



Lemma keeps_ready (s s' : pdf) : ready s -> keeps s s' -> ready s'.
Proof.
  intros [Hp Hf] [A B]. split; [lia |].
  unfold style_of in A. injection A as A _ _ _. congruence.
Qed.

Lemma keeps_render_line w h txt al nx ny (s : pdf) :
  ready s -> keeps s (render_line w h txt al nx ny s).
Proof.
  intros [_ Hf]. split.
  - apply render_line_graphics, Hf.
  - apply render_line_page.
Qed.

Lemma keeps_cell w h txt al nx ny (s : pdf) :
  ready s -> exists s', cell w h txt al nx ny s = Ok s' /\ keeps s s'.
Proof.
  intros R. destruct R as [Hp Hf]. rewrite cell_ok by assumption.
  eexists. split; [reflexivity |]. apply keeps_render_line. now split.
Qed.

Lemma keeps_ln h (s : pdf) :
  ready s -> exists s', ln h s = Ok s' /\ keeps s s'.
Proof.
  intros [Hp _]. rewrite ln_ok by assumption.
  eexists. split; [reflexivity |]. split; [reflexivity | apply Nat.le_refl].
Qed.

Lemma keeps_line x1 y1 x2 y2 (s : pdf) :
  ready s -> exists s', line x1 y1 x2 y2 s = Ok s' /\ keeps s s'.
Proof.
  intros [Hp _]. rewrite line_ok by assumption.
  eexists. split; [reflexivity |]. split; [reflexivity | apply Nat.le_refl].
Qed.

Lemma keeps_rect rx ry w h st (s : pdf) :
  ready s -> exists s', rect rx ry w h st s = Ok s' /\ keeps s s'.
Proof.
  intros [Hp _]. rewrite rect_ok by assumption.
  eexists. split; [reflexivity |]. split; [reflexivity | apply Nat.le_refl].
Qed.

Lemma keeps_render_text w h (ls : list text_line) (s : pdf) :
  ready s -> keeps s (render_text w h ls s).
Proof.
  intros [Hp Hf]. split.
  - apply render_text_graphics, Hf.
  - apply page_adv, adv_render_text.
Qed.

Lemma keeps_code_lines x0 (ls : list string) (s : pdf) :
  ready s -> exists s', code_lines x0 ls s = Ok s' /\ keeps s s'.
Proof.
  intros [Hp Hf]. destruct (code_lines_ok x0 ls s Hp Hf) as (s' & H & G).
  exists s'. split; [exact H |]. split; [apply G |].
  apply page_adv. eapply adv_code_lines. exact H.
Qed.

Lemma keeps_add_page (s : pdf) : font_family s <> "" -> keeps s (add_page s).
Proof.
  intros Hf. split; [apply add_page_graphics, Hf |].
  rewrite add_page_page. lia.
Qed.


(** ** Header and footer against the state left by the content *)

(** C10, as the code has it.  Take two contexts on the same page number,
    with any fonts and colours.  What a new page draws (the footer of the
    page left, when there is one, then the header of the page entered) and
    what the closing footer draws are the same in both, text for text and
    position for position, all text in Helvetica italic 8 in gray, except
    for the stroke colour of the two rules, which is the draw colour the
    content left behind: with equal draw colours the primitives are
    identical. *)
Theorem furniture_up_to_stroke (s1 s2 : pdf) :
  page s1 = page s2 ->
  exists d1 d2 f1 f2,
    out (add_page s1) = (out s1 ++ d1)%list
    /\ out (add_page s2) = (out s2 ++ d2)%list
    /\ out (footer s1) = (out s1 ++ f1)%list
    /\ out (footer s2) = (out s2 ++ f2)%list
    /\ map (with_stroke black) d1 = map (with_stroke black) d2
    /\ map (with_stroke black) f1 = map (with_stroke black) f2
    /\ (draw_color s1 = draw_color s2 -> d1 = d2 /\ f1 = f2)
    /\ (forall e tx ty w h txt al fam sty sz col,
          In e (d1 ++ f1)%list ->
          what e = Text tx ty w h txt al fam sty sz col ->
          fam = "Helvetica" /\ sty = "I" /\ sz = 8%Z
          /\ col = (120, 120, 120)%Z).
Proof.
  intros Hp.
  exists (furniture (page s1) (draw_color s1)),
         (furniture (page s2) (draw_color s2)),
         (footer_block (page s1) (draw_color s1)),
         (footer_block (page s2) (draw_color s2)).
  split; [apply add_page_out |]. split; [apply add_page_out |].
  split; [apply footer_out |]. split; [apply footer_out |].
  rewrite <- Hp.
  split; [unfold furniture; destruct (0 <? page s1)%nat; reflexivity |].
  split; [reflexivity |].
  split; [intros ->; split; reflexivity |].
  intros e tx ty w h txt al fam sty sz col Hin He.
  unfold furniture in Hin.
  assert (In e (footer_block (page s1) (draw_color s1)
                ++ header_block (header_label (S (page s1))) (S (page s1))
                     (draw_color s1))%list) as Hin'.
  { apply in_app_iff in Hin. destruct Hin as [Hin | Hin];
      [| apply in_app_iff; now left].
    apply in_app_iff in Hin. destruct Hin as [Hin | Hin];
      apply in_app_iff; [| now right].
    destruct (0 <? page s1)%nat; [now left | destruct Hin]. }
  clear Hin. cbn -[page_h page_w header_label] in Hin'.
  repeat (destruct Hin' as [<- | Hin'];
          [cbn [what] in He; first [discriminate
             | injection He as <- <- <- <- <- <- <- <- <- <-; auto] |]).
  destruct Hin'.
Qed.

Lemma furniture_up_to_stroke_witness :
  exists d1 d2 f1 f2,
    out (add_page title_state) = (out title_state ++ d1)%list
    /\ out (add_page (add_page report_pdf))
       = (out (add_page report_pdf) ++ d2)%list
    /\ out (footer title_state) = (out title_state ++ f1)%list
    /\ out (footer (add_page report_pdf))
       = (out (add_page report_pdf) ++ f2)%list
    /\ map (with_stroke black) d1 = map (with_stroke black) d2
    /\ map (with_stroke black) f1 = map (with_stroke black) f2
    /\ (draw_color title_state = draw_color (add_page report_pdf) ->
        d1 = d2 /\ f1 = f2)
    /\ (forall e tx ty w h txt al fam sty sz col,
          In e (d1 ++ f1)%list ->
          what e = Text tx ty w h txt al fam sty sz col ->
          fam = "Helvetica" /\ sty = "I" /\ sz = 8%Z
          /\ col = (120, 120, 120)%Z).
Proof.
  apply (furniture_up_to_stroke title_state (add_page report_pdf)).
  vm_compute. reflexivity.
Defined.

(** C10, counterexample.  Two contexts on page 1, one fresh and one after
    a first-level heading: the header drawn on page 2 differs, its rule
    being black in the first and blue in the second. *)
Lemma header_rule_takes_draw_color :
  exists s2,
    after_heading = Ok s2
    /\ page (add_page report_pdf) = page s2
    /\ on 2 Header (out (add_page (add_page report_pdf)))
       = header_block "Page 2/{nb}" 2 (0, 0, 0)%Z
    /\ on 2 Header (out (add_page s2))
       = header_block "Page 2/{nb}" 2 (25, 55, 120)%Z
    /\ on 2 Header (out (add_page (add_page report_pdf)))
       <> on 2 Header (out (add_page s2)).
Proof.
  eexists. split; [vm_compute; reflexivity |].
  split; [vm_compute; reflexivity |].
  split; [vm_compute; reflexivity |].
  split; [vm_compute; reflexivity |].
  vm_compute. discriminate.
Qed.

(** ** The page break of code_block *)

Lemma Qltb_lt (a b : Q) : Qltb a b = true <-> a < b.
Proof.
  unfold Qltb. rewrite negb_true_iff.
  split; intros H.
  - apply Qnot_le_lt. intros L. apply Qle_bool_iff in L. congruence.
  - destruct (Qle_bool b a) eqn:E; [| reflexivity].
    apply Qle_bool_iff in E. exfalso. exact (Qlt_not_le _ _ H E).
Qed.

Lemma Qltb_ge (a b : Q) : Qltb a b = false <-> b <= a.
Proof.
  unfold Qltb. rewrite negb_false_iff. apply Qle_bool_iff.
Qed.

Lemma code_block_unfold (c : string) (s : pdf) :
  code_block c s
  = (s2 <- rect (x s + 5) (y (border_context c s)) 180 (code_height c) "DF"
             (border_context c s) ;;
     s3 <- code_lines (x s + 5) (split_nl c)
             (set_xy (x s + 5 + 3) (y (border_context c s) + 2) s2) ;;
     ln 3 s3).
Proof. reflexivity. Qed.

Lemma border_context_ready (c : string) (s : pdf) :
  (0 < page s)%nat -> ready (border_context c s).
Proof.
  intros Hp. unfold border_context.
  destruct (Qltb 270 (y s + code_height c)).
  - apply (keeps_ready (code_context s)).
    + split; [exact Hp | discriminate].
    + apply keeps_add_page. discriminate.
  - split; [exact Hp | discriminate].
Qed.

Lemma border_context_colors (c : string) (s : pdf) :
  draw_color (border_context c s) = code_stroke
  /\ fill_color (border_context c s) = code_fill.
Proof.
  unfold border_context. destruct (Qltb 270 (y s + code_height c)).
  - destruct (add_page_colors (code_context s)) as (_ & A & B).
    rewrite A, B. split; reflexivity.
  - split; reflexivity.
Qed.

(** C3, as the code has it.  On an open page, [code_block] returns
    normally and decides the page break of its block against the fixed
    height 270.  The program adds the cursor height and the measured
    height in floating point, so a sum within [slack] of 270 can fall on
    either side; outside that band the decision is fixed.  The border is
    drawn either on a new page, at the top of its content area, and then
    the sum is at least 270 less [slack]; or on the current page at the
    cursor, and then the sum is at most 270 plus [slack].  That boundary
    is not the one of the automatic page break, which with the bottom
    margin of 20 lies more than 7 mm lower. *)
Theorem code_block_breaks_at_270 (c : string) (s : pdf) :
  (0 < page s)%nat ->
  exists s' d,
    code_block c s = Ok s'
    /\ ((270 - slack <= y s + code_height c
         /\ out s'
            = (out s ++ furniture (page s) code_stroke
               ++ [mkEntry (S (page s)) Body
                     (Rect (x s + 5) top_of_content 180 (code_height c) "DF"
                        code_stroke code_fill)]
               ++ d)%list)
        \/ (y s + code_height c <= 270 + slack
            /\ out s'
               = (out s
                  ++ [mkEntry (page s) Body
                        (Rect (x s + 5) (y s) 180 (code_height c) "DF"
                           code_stroke code_fill)]
                  ++ d)%list))
    /\ 270 + 7 < page_break_trigger report_pdf.
Proof.
  intros Hp. rewrite code_block_unfold.
  pose proof (border_context_ready c s Hp) as R.
  destruct (border_context_colors c s) as [Hd Hf].
  rewrite rect_ok by apply R. cbn [bind]. rewrite Hd, Hf.
  set (s2 := set_xy _ _ (emit Body _ _)).
  assert (O2 : out s2
               = (out (border_context c s)
                  ++ [mkEntry (page (border_context c s)) Body
                        (Rect (x s + 5) (y (border_context c s)) 180
                           (code_height c) "DF" code_stroke code_fill)])%list)
    by reflexivity.
  assert (R2 : ready s2) by exact R.
  destruct (keeps_code_lines (x s + 5) (split_nl c) s2 R2) as (s3 & E3 & K3).
  rewrite E3. cbn [bind].
  pose proof (keeps_ready _ _ R2 K3) as R3.
  rewrite ln_ok by apply R3.
  destruct (adv_extends _ _ (adv_code_lines _ _ _ _ E3)) as [d Hd3].
  exists (ln_move 3 s3), d. split; [reflexivity |].
  split; [| vm_compute; reflexivity].
  change (out (ln_move 3 s3)) with (out s3). rewrite Hd3, O2.
  clear O2 Hd3 E3 K3 R2 R3 s2 s3 R Hd Hf.
  unfold border_context.
  destruct (Qltb 270 (y s + code_height c)) eqn:E.
  - left. apply Qltb_lt in E.
    split; [unfold slack; lra |].
    rewrite add_page_out, add_page_page, add_page_y.
    change (out (code_context s)) with (out s).
    change (page (code_context s)) with (page s).
    change (draw_color (code_context s)) with code_stroke.
    now rewrite <- !app_assoc.
  - right. apply Qltb_ge in E.
    split; [unfold slack; lra |].
    change (out (code_context s)) with (out s).
    change (page (code_context s)) with (page s).
    change (y (code_context s)) with (y s).
    now rewrite <- !app_assoc.
Qed.

Lemma code_block_breaks_at_270_witness :
  exists s' d,
    code_block five_lines low_on_page = Ok s'
    /\ ((270 - slack <= y low_on_page + code_height five_lines
         /\ out s'
            = (out low_on_page ++ furniture (page low_on_page) code_stroke
               ++ [mkEntry (S (page low_on_page)) Body
                     (Rect (x low_on_page + 5) top_of_content 180
                        (code_height five_lines) "DF"
                        code_stroke code_fill)]
               ++ d)%list)
        \/ (y low_on_page + code_height five_lines <= 270 + slack
            /\ out s'
               = (out low_on_page
                  ++ [mkEntry (page low_on_page) Body
                        (Rect (x low_on_page + 5) (y low_on_page) 180
                           (code_height five_lines) "DF"
                           code_stroke code_fill)]
                  ++ d)%list))
    /\ 270 + 7 < page_break_trigger report_pdf.
Proof.
  apply (code_block_breaks_at_270 five_lines low_on_page).
  vm_compute. lia.
Defined.

(** C3, counterexample.  With the cursor at 250 on page 1, a block of five
    lines measures 25 and would end at 275, above the trigger of the
    automatic page break; [code_block] nevertheless opens page 2 for
    it. *)
Lemma code_block_breaks_below_trigger :
  run fixed_metrics [AddPage; Ln 231] report_pdf = Ok low_on_page
  /\ y low_on_page + code_height five_lines == 275
  /\ y low_on_page + code_height five_lines <= page_break_trigger low_on_page
  /\ (exists s', code_block five_lines low_on_page = Ok s'
                 /\ page low_on_page = 1%nat /\ page s' = 2%nat)
  /\ ~ breaks_at_trigger five_lines low_on_page.
Proof.
  assert (L : y low_on_page + code_height five_lines
              <= page_break_trigger low_on_page).
  { apply Qle_bool_iff. vm_compute. reflexivity. }
  assert (E : exists s', code_block five_lines low_on_page = Ok s'
                 /\ page low_on_page = 1%nat /\ page s' = 2%nat).
  { eexists. split; [vm_compute; reflexivity |].
    split; vm_compute; reflexivity. }
  split; [vm_compute; reflexivity |].
  split; [vm_compute; reflexivity |].
  split; [exact L |]. split; [exact E |].
  intros C. destruct E as (s' & E & P1 & P2).
  apply C in E. destruct E as [E _].
  assert (P : (page low_on_page < page s')%nat) by (rewrite P1, P2; lia).
  apply E in P. exact (Qlt_not_le _ _ P L).
Qed.

(** ** A code block on one page *)

Lemma lines_height_S (n : nat) : lines_height (S n) == lines_height n + 4.2.
Proof.
  unfold lines_height. rewrite Nat2Z.inj_succ. unfold Z.succ.
  rewrite inject_Z_plus. ring.
Qed.

Lemma lines_height_nonneg (n : nat) : 0 <= lines_height n.
Proof.
  unfold lines_height.
  assert (0 <= inject_Z (Z.of_nat n)).
  { change 0 with (inject_Z 0). rewrite <- Zle_Qle. lia. }
  nra.
Qed.

Lemma lines_height_le (n m : nat) :
  (n <= m)%nat -> lines_height n <= lines_height m.
Proof.
  intros H. unfold lines_height.
  assert (inject_Z (Z.of_nat n) <= inject_Z (Z.of_nat m))
    by (rewrite <- Zle_Qle; lia).
  nra.
Qed.

Lemma will_page_break_fits (h : Q) (s : pdf) :
  y s + h <= page_break_trigger s -> will_page_break h s = false.
Proof.
  intros H. unfold will_page_break.
  apply Qltb_ge in H. now rewrite H.
Qed.

Lemma placed_weaken (pg : nat) (t t' b b' : Q) (e : entry) :
  t' <= t -> b <= b' -> placed pg t b e -> placed pg t' b' e.
Proof.
  intros Ht Hb (A & B & C & D). repeat split; try assumption.
  - eapply Qle_trans; eassumption.
  - eapply Qle_trans; eassumption.
Qed.

(** As long as the lines end above the trigger of the automatic page
    break, the loop of [code_block] draws them one under the other on the
    current page. *)
Lemma code_lines_fit x0 (ls : list string) (s : pdf) :
  (0 < page s)%nat -> font_family s <> "" ->
  y s + lines_height (List.length ls) <= page_break_trigger s ->
  exists s' texts,
    code_lines x0 ls s = Ok s'
    /\ out s' = (out s ++ texts)%list
    /\ page s' = page s
    /\ map (fun e => text_of (what e)) texts = map Some ls
    /\ Forall (placed (page s) (y s)
                 (y s + lines_height (List.length ls))) texts.
Proof.
  revert s. induction ls as [| l ls IH]; intros s Hp Hf Hy.
  - exists s, []. cbn [code_lines map]. rewrite app_nil_r. repeat split.
    constructor.
  - cbn [code_lines List.length] in *.
    rewrite cell_ok by assumption. cbn [bind].
    rewrite lines_height_S in Hy.
    pose proof (lines_height_nonneg (List.length ls)) as Hn.
    unfold render_line.
    rewrite will_page_break_fits by lra.
    set (s1 := set_x (x0 + 3)
                 (cell_draw Body 0 4.2 l AlignL XLMARGIN YNEXT s)).
    assert (Y1 : y s1 = y s + 4.2) by reflexivity.
    destruct (IH s1) as (s' & texts & E & O & P & T & F).
    + exact Hp.
    + exact Hf.
    + rewrite Y1. change (page_break_trigger s1) with (page_break_trigger s).
      lra.
    + exists s'.
      exists (mkEntry (page s) Body
                (Text (x s) (y s)
                   (if Qeq_bool 0 0 then page_w - r_margin - x s else 0)
                   4.2 l AlignL (font_family s) (font_style s)
                   (font_size_pt s) (text_color s)) :: texts).
      split; [exact E |].
      split; [rewrite O; cbn [s1 set_x with_xy out cell_draw emit];
              now rewrite <- app_assoc |].
      split; [exact P |].
      split; [cbn [map what text_of]; now rewrite T |].
      constructor.
      * repeat split; cbn [what prim_top prim_bottom].
        -- lra.
        -- rewrite lines_height_S. lra.
      * eapply Forall_impl; [| exact F].
        intros e. rewrite Y1. change (page s1) with (page s).
        apply placed_weaken; [lra | rewrite lines_height_S; lra].
Qed.

Lemma page_h_a4 : 297 <= page_h.
Proof. apply Qle_bool_iff. vm_compute. reflexivity. Qed.

Lemma lines_height_60 : lines_height 60 == 252.
Proof. vm_compute. reflexivity. Qed.

Lemma border_context_cases (c : string) (s : pdf) :
  ((270 < y s + code_height c
    /\ out (border_context c s)
       = (out s ++ furniture (page s) code_stroke)%list
    /\ page (border_context c s) = S (page s)
    /\ y (border_context c s) = top_of_content)
   \/ (y s + code_height c <= 270
       /\ out (border_context c s) = (out s ++ [])%list
       /\ page (border_context c s) = page s
       /\ y (border_context c s) = y s))
  /\ b_margin (border_context c s) = b_margin s.
Proof.
  unfold border_context.
  destruct (Qltb 270 (y s + code_height c)) eqn:E.
  - split; [left | exact (proj1 (proj2 (add_page_config (code_context s))))].
    split; [now apply Qltb_lt |].
    rewrite add_page_out, add_page_page, add_page_y. auto.
  - split; [right | reflexivity].
    split; [now apply Qltb_ge |]. rewrite app_nil_r. auto.
Qed.

(** C1, as the code has it.  On an open page, with the bottom margin of
    20 that [generate_report] configures, take a block of at most 60
    lines.  [code_block] returns normally.  Either a page break comes
    first, before any part of the block, and then the cursor height plus
    the measured height of the block (border and text as one unit) is at
    least 270 less [slack]; or nothing comes first, and then that sum is
    at most 270 plus [slack].  The program computes the sum in floating
    point, so within [slack] of 270 either may happen.  In both cases the
    border and, under it, one text line per line of code are all drawn on
    one and the same page, within the border's vertical extent, which
    ends above the trigger of the automatic page break. *)
Theorem code_block_on_one_page (c : string) (s : pdf) :
  (0 < page s)%nat ->
  0 <= y s ->
  b_margin s == 20 ->
  (List.length (split_nl c) <= 60)%nat ->
  exists s' pre border texts pg top,
    code_block c s = Ok s'
    /\ out s' = (out s ++ pre ++ border :: texts)%list
    /\ ((270 - slack <= y s + code_height c
         /\ pre = furniture (page s) code_stroke
         /\ pg = S (page s) /\ top = top_of_content)
        \/ (y s + code_height c <= 270 + slack
            /\ pre = [] /\ pg = page s /\ top = y s))
    /\ border = mkEntry pg Body
                  (Rect (x s + 5) top 180 (code_height c) "DF"
                     code_stroke code_fill)
    /\ map (fun e => text_of (what e)) texts = map Some (split_nl c)
    /\ Forall (placed pg top (top + code_height c)) texts
    /\ top + code_height c <= page_break_trigger s
    /\ page s' = pg.
Proof.
  intros Hp Hy Hb Hn. rewrite code_block_unfold.
  pose proof (border_context_ready c s Hp) as R.
  destruct (border_context_colors c s) as [Hd Hf].
  destruct (border_context_cases c s) as [Hc Hm].
  rewrite rect_ok by apply R. cbn [bind]. rewrite Hd, Hf.
  set (bc := border_context c s) in *.
  set (n := List.length (split_nl c)) in *.
  pose proof (lines_height_le n 60 Hn) as Hl.
  rewrite lines_height_60 in Hl.
  pose proof (lines_height_nonneg n) as Hl0.
  pose proof page_h_a4 as Ha.
  assert (Hh : code_height c = lines_height n + 4) by reflexivity.
  assert (Htop : 0 <= y bc /\ y bc + 2 + lines_height n + 2 + 20 <= page_h
                 /\ y bc + code_height c <= page_break_trigger s).
  { unfold page_break_trigger. rewrite Hh in *.
    destruct Hc as [(A & _ & _ & ->) | (A & _ & _ & ->)].
    - unfold top_of_content, t_margin. repeat split; lra.
    - repeat split; lra. }
  destruct Htop as (Hy0 & Hy1 & Hy2).
  set (s2 := set_xy _ _ (emit Body _ _)).
  assert (Y2 : y s2 = y bc + 2).
  { unfold s2, set_xy, set_x, set_y. cbn [with_xy y].
    assert (Q0 : Qle_bool 0 (y bc + 2) = true) by (apply Qle_bool_iff; lra).
    now rewrite Q0. }
  assert (O2 : out s2
               = (out bc
                  ++ [mkEntry (page bc) Body
                        (Rect (x s + 5) (y bc) 180 (code_height c) "DF"
                           code_stroke code_fill)])%list)
    by reflexivity.
  destruct (code_lines_fit (x s + 5) (split_nl c) s2)
    as (s3 & texts & E3 & O3 & P3 & T3 & F3).
  - apply R.
  - apply R.
  - rewrite Y2. unfold page_break_trigger.
    change (b_margin s2) with (b_margin bc). rewrite Hm. fold n. lra.
  - rewrite E3. cbn [bind].
    rewrite ln_ok by (rewrite P3; apply R).
    exists (ln_move 3 s3),
           (if Qltb 270 (y s + code_height c)
            then furniture (page s) code_stroke else []),
           (mkEntry (page bc) Body
              (Rect (x s + 5) (y bc) 180 (code_height c) "DF"
                 code_stroke code_fill)),
           texts, (page bc), (y bc).
    split; [reflexivity |].
    change (out (ln_move 3 s3)) with (out s3).
    change (page (ln_move 3 s3)) with (page s3).
    change (page s2) with (page bc) in *.
    rewrite O3, O2, P3.
    split.
    { destruct Hc as [(A & -> & _) | (A & -> & _)].
      - apply Qltb_lt in A. rewrite A. now rewrite <- !app_assoc.
      - apply Qltb_ge in A. rewrite A. now rewrite <- !app_assoc. }
    split.
    { destruct Hc as [(A & _ & B & C) | (A & _ & B & C)].
      - left. pose proof A as A'. apply Qltb_lt in A'. rewrite A'.
        split; [unfold slack; lra | auto].
      - right. pose proof A as A'. apply Qltb_ge in A'. rewrite A'.
        split; [unfold slack; lra | auto]. }
    split; [reflexivity |].
    split; [exact T3 |].
    split; [| split; [exact Hy2 | reflexivity]].
    eapply Forall_impl; [| exact F3].
    intros e. rewrite Y2. fold n. rewrite Hh.
    apply placed_weaken; lra.
Qed.

Lemma code_block_on_one_page_witness :
  exists s' pre border texts pg top,
    code_block five_lines low_on_page = Ok s'
    /\ out s' = (out low_on_page ++ pre ++ border :: texts)%list
    /\ ((270 - slack <= y low_on_page + code_height five_lines
         /\ pre = furniture (page low_on_page) code_stroke
         /\ pg = S (page low_on_page) /\ top = top_of_content)
        \/ (y low_on_page + code_height five_lines <= 270 + slack
            /\ pre = [] /\ pg = page low_on_page /\ top = y low_on_page))
    /\ border = mkEntry pg Body
                  (Rect (x low_on_page + 5) top 180 (code_height five_lines)
                     "DF" code_stroke code_fill)
    /\ map (fun e => text_of (what e)) texts = map Some (split_nl five_lines)
    /\ Forall (placed pg top (top + code_height five_lines)) texts
    /\ top + code_height five_lines <= page_break_trigger low_on_page
    /\ page s' = pg.
Proof.
  apply (code_block_on_one_page five_lines low_on_page).
  - vm_compute. lia.
  - apply Qle_bool_iff. vm_compute. reflexivity.
  - vm_compute. reflexivity.
  - vm_compute. lia.
Defined.

(** C1, counterexample.  A block of 61 lines, taller than the printable
    area, sent from the top of page 1: the border and the first 60 lines
    are drawn on page 2, and the automatic page break moves the last line
    to page 3. *)
Lemma long_code_block_is_split :
  List.length (split_nl sixty_one_lines) = 61%nat
  /\ (exists s',
        code_block sixty_one_lines (add_page report_pdf) = Ok s'
        /\ block_pages (add_page report_pdf) s'
           = (2 :: repeat 2 60 ++ [3])%nat%list)
  /\ ~ drawn_on_one_page sixty_one_lines (add_page report_pdf).
Proof.
  assert (E : exists s',
             code_block sixty_one_lines (add_page report_pdf) = Ok s'
             /\ block_pages (add_page report_pdf) s'
                = (2 :: repeat 2 60 ++ [3])%nat%list).
  { eexists. split; vm_compute; reflexivity. }
  split; [vm_compute; reflexivity |]. split; [exact E |].
  intros C. destruct E as (s' & E & B).
  destruct (C s' E) as [pg F]. rewrite B in F.
  rewrite Forall_forall in F.
  assert (H2 : (2 = pg)%nat) by (apply F; left; reflexivity).
  assert (H3 : (3 = pg)%nat).
  { apply F. right. apply in_or_app. right. left. reflexivity. }
  congruence.
Qed.

(** ** Bullets *)

Lemma body_app (l1 l2 : list entry) :
  body (l1 ++ l2)%list = (body l1 ++ body l2)%list.
Proof. apply filter_app. Qed.

Lemma body_furniture (p : nat) (dc : rgb) : body (furniture p dc) = [].
Proof. unfold furniture. destruct (0 <? p)%nat; reflexivity. Qed.

Lemma out_with_xy nx ny (s : pdf) : out (with_xy nx ny s) = out s.
Proof. reflexivity. Qed.

Lemma page_with_xy nx ny (s : pdf) : page (with_xy nx ny s) = page s.
Proof. reflexivity. Qed.

Lemma y_with_xy nx ny (s : pdf) : y (with_xy nx ny s) = ny.
Proof. reflexivity. Qed.

Lemma style_with_xy nx ny (s : pdf) : style_of (with_xy nx ny s) = style_of s.
Proof. reflexivity. Qed.

Lemma perform_page_break_out (s : pdf) :
  out (perform_page_break s) = out (add_page s).
Proof. unfold perform_page_break. apply out_with_xy. Qed.

Lemma line_state_x (h : Q) (s : pdf) : x (line_state h s) = x s.
Proof. unfold line_state. destruct (will_page_break h s); reflexivity. Qed.

Lemma line_state_out (h : Q) (s : pdf) :
  exists d, out (line_state h s) = (out s ++ d)%list /\ body d = [].
Proof.
  unfold line_state. destruct (will_page_break h s).
  - exists (furniture (page s) (draw_color s)).
    split; [| apply body_furniture].
    rewrite perform_page_break_out. exact (add_page_out s).
  - exists []. now rewrite app_nil_r.
Qed.

Lemma render_line_box w h txt al nx ny (s : pdf) :
  exists d,
    out (render_line w h txt al nx ny s) = (out s ++ d)%list
    /\ map box (body d)
       = [Some (x s,
                if Qeq_bool w 0 then page_w - r_margin - x s else w, txt)].
Proof.
  destruct (line_state_out h s) as (d & Hd & Hb).
  eexists (d ++ [_])%list. rewrite render_line_out, Hd, <- app_assoc.
  split; [reflexivity |].
  rewrite body_app, Hb. cbn [app body filter origin region_eqb map box what].
  now rewrite line_state_x.
Qed.



Lemma render_text_out w h (ls : list text_line) (s : pdf) :
  out (render_text w h ls s) = out (multi_cell_lines w h ls s).
Proof. unfold render_text. destruct (ends_with_nl ls); reflexivity. Qed.






(** ** The style a renderer draws in and leaves behind *)




























(** ** The model at work on the report's own data *)

Example split_nl_three : split_nl (String.concat nl ["a"; ""; "b"]) = ["a"; ""; "b"].
Proof. reflexivity. Qed.

Example str_mul_negative : str_mul "." (-3) = "".
Proof. reflexivity. Qed.

Example toc_first_row :
  toc_text "1." "Introduction" 3
  = "1.  Introduction ........................................................ 3".
Proof. reflexivity. Qed.

(** No row of the report's table of contents reaches the column width:
    every leader has at least one dot. *)
Example toc_rows_fit :
  forallb (fun r => (len (fst (fst r)) + len (snd (fst r)) <? 70)%Z) toc
  = true.
Proof. reflexivity. Qed.

(** The table of contents alone: it fits on one page, whose content is
    the heading, its underline and the 27 rows. *)
Example toc_page :
  exists doc,
    generate fixed_metrics
      (AddPage :: ChapterTitle "Table des matieres" 1
       :: map (fun r => TocRow (fst (fst r)) (snd (fst r)) (snd r)) toc)
    = Ok doc
    /\ page_count doc = 1%nat
    /\ List.length (on 1 Body (content doc)) = 29%nat.
Proof.
  eexists. split; [vm_compute; reflexivity |]. split; vm_compute; reflexivity.
Qed.

(** A bullet whose text ends with a newline: [multi_cell] closes with
    [ln()], and the cursor is at the left margin, two lines below the
    start. *)
Example bullet_trailing_newline :
  exists s',
    bullet_point fixed_metrics ("Stats" ++ nl) 10 first_page = Ok s'
    /\ x s' = l_margin
    /\ y s' == y first_page + 5.5 + 5.5.
Proof.
  eexists. split; [vm_compute; reflexivity |].
  split; vm_compute; reflexivity.
Qed.

(** An indent wider than the page leaves no room for a character. *)
Example bullet_too_narrow :
  bullet_point fixed_metrics "Stats" 250 first_page = Raise not_enough_space.
Proof. vm_compute. reflexivity. Qed.

(** The single line of the text of a key-value line is left-aligned. *)
Example key_value_left_aligned :
  exists s',
    bold_text fixed_metrics "Langage :" "C++17" first_page = Ok s'
    /\ map (fun e => match what e with
                     | Text _ _ _ _ txt al _ sty _ _ => Some (txt, al, sty)
                     | _ => None
                     end)
         (skipn (List.length (out first_page)) (out s'))
       = [Some ("Langage :", AlignL, "B"); Some ("C++17", AlignL, "")].
Proof. eexists. split; vm_compute; reflexivity. Qed.

(** A cell that starts above the top margin and would end below the
    trigger moves to the next page like any other. *)
Example cell_from_above_top_margin :
  exists s',
    cell 0 275 "x" AlignL XRIGHT YTOP (set_y 5 title_state) = Ok s'
    /\ page (set_y 5 title_state) = 1%nat
    /\ page s' = 2%nat.
Proof.
  eexists. split; [vm_compute; reflexivity |].
  split; vm_compute; reflexivity.
Qed.

(** * Further properties of the renderer *)

(** ** Drawing before the first page *)

Lemma check_page_zero (s : pdf) : page s = 0%nat -> check_page s = Raise no_page_open.
Proof. intros H. unfold check_page. now rewrite H. Qed.

(** X2.  Before the first add_page() nothing can be drawn: a heading of
    level 1, 2 or 3, a paragraph, a bullet, a key-value line and a row of
    the table of contents all raise "No page open"; so does a code block
    that fits above 270, while a code block that does not fit opens the
    first page itself. *)
Theorem renderers_need_a_page (M : metrics) (s : pdf) :
  page s = 0%nat ->
  (forall t, chapter_title t 1 s = Raise no_page_open)
  /\ (forall t, chapter_title t 2 s = Raise no_page_open)
  /\ (forall t, chapter_title t 3 s = Raise no_page_open)
  /\ (forall t, body_text M t s = Raise no_page_open)
  /\ (forall t i, bullet_point M t i s = Raise no_page_open)
  /\ (forall l t, bold_text M l t s = Raise no_page_open)
  /\ (forall n t p, toc_row n t p s = Raise no_page_open)
  /\ (forall c, y s + code_height c <= 270 ->
                code_block c s = Raise no_page_open)
  /\ (forall c, 270 < y s + code_height c ->
                exists s', code_block c s = Ok s').
Proof.
  intros Hp.
  assert (Z0 : forall s0, page s0 = page s -> check_page s0 = Raise no_page_open).
  { intros s0 E. apply check_page_zero. congruence. }
  repeat split; intros.
  - unfold chapter_title, ln. cbn [Z.eqb Pos.eqb]. now rewrite Z0.
  - unfold chapter_title, ln. cbn [Z.eqb Pos.eqb]. now rewrite Z0.
  - unfold chapter_title, ln. cbn [Z.eqb Pos.eqb]. now rewrite Z0.
  - unfold body_text, multi_cell. now rewrite Z0.
  - unfold bullet_point, multi_cell. now rewrite Z0.
  - unfold bold_text, cell. now rewrite Z0.
  - unfold toc_row, cell. now rewrite Z0.
  - rewrite code_block_unfold. unfold border_context.
    apply Qltb_ge in H. rewrite H. unfold rect. now rewrite Z0.
  - rewrite code_block_unfold.
    assert (R : ready (border_context c s)).
    { unfold border_context. apply Qltb_lt in H. rewrite H. split.
      - rewrite add_page_page. lia.
      - apply (same_graphics_font (code_context s));
          [apply add_page_graphics |]; discriminate. }
    rewrite rect_ok by apply R. cbn [bind].
    match goal with
    | |- context [code_lines ?a ?b ?st] =>
        destruct (keeps_code_lines a b st R) as (s3 & E3 & K3)
    end.
    rewrite E3. cbn [bind].
    rewrite ln_ok by exact (proj1 (keeps_ready _ _ R K3)).
    eexists. reflexivity.
Qed.

Lemma renderers_need_a_page_witness :
  (forall t, chapter_title t 1 report_pdf = Raise no_page_open)
  /\ (forall t, chapter_title t 2 report_pdf = Raise no_page_open)
  /\ (forall t, chapter_title t 3 report_pdf = Raise no_page_open)
  /\ (forall t, body_text fixed_metrics t report_pdf = Raise no_page_open)
  /\ (forall t i, bullet_point fixed_metrics t i report_pdf
                  = Raise no_page_open)
  /\ (forall l t, bold_text fixed_metrics l t report_pdf = Raise no_page_open)
  /\ (forall n t p, toc_row n t p report_pdf = Raise no_page_open)
  /\ (forall c, y report_pdf + code_height c <= 270 ->
                code_block c report_pdf = Raise no_page_open)
  /\ (forall c, 270 < y report_pdf + code_height c ->
                exists s', code_block c report_pdf = Ok s').
Proof.
  apply (renderers_need_a_page fixed_metrics report_pdf).
  reflexivity.
Defined.

(** ** A cell and the automatic page break *)

Lemma will_page_break_iff (h : Q) (s : pdf) :
  will_page_break h s = true <-> must_break h s.
Proof.
  unfold will_page_break, must_break.
  rewrite !andb_true_iff, !Qltb_lt. tauto.
Qed.

(** The context in which a line is drawn, against the context before. *)
Lemma line_state_cases (h : Q) (s : pdf) :
  font_family s <> "" ->
  ((must_break h s
    /\ out (line_state h s)
       = (out s ++ furniture (page s) (draw_color s))%list
    /\ page (line_state h s) = S (page s)
    /\ y (line_state h s) = top_of_content)
   \/ (~ must_break h s
       /\ out (line_state h s) = (out s ++ [])%list
       /\ page (line_state h s) = page s
       /\ y (line_state h s) = y s))
  /\ x (line_state h s) = x s
  /\ style_of (line_state h s) = style_of s.
Proof.
  intros Hf. split; [| split; [apply line_state_x |]].
  - unfold line_state. destruct (will_page_break h s) eqn:E.
    + left. split; [now apply will_page_break_iff |].
      unfold perform_page_break.
      rewrite out_with_xy, page_with_xy, y_with_xy, add_page_out,
        add_page_page, add_page_y. auto.
    + right. split.
      * intros B. apply will_page_break_iff in B. congruence.
      * rewrite app_nil_r. auto.
  - unfold line_state. destruct (will_page_break h s); [| reflexivity].
    unfold perform_page_break. rewrite style_with_xy.
    apply add_page_graphics, Hf.
Qed.

Lemma style_fields (s s' : pdf) :
  style_of s' = style_of s ->
  font_family s' = font_family s /\ font_style s' = font_style s
  /\ font_size_pt s' = font_size_pt s /\ text_color s' = text_color s.
Proof. unfold style_of. intros H. injection H as A B C D. auto. Qed.

(** What [cell] appends on a ready context. *)
Lemma cell_out w h txt al nx ny (s : pdf) :
  ready s ->
  exists s' pre pg ty,
    cell w h txt al nx ny s = Ok s'
    /\ out s'
       = (out s ++ pre
          ++ [mkEntry pg Body
                (Text (x s) ty
                   (if Qeq_bool w 0 then page_w - r_margin - x s else w)
                   h txt al (font_family s) (font_style s) (font_size_pt s)
                   (text_color s))])%list
    /\ ((must_break h s /\ pre = furniture (page s) (draw_color s)
         /\ pg = S (page s) /\ ty = top_of_content)
        \/ (~ must_break h s /\ pre = [] /\ pg = page s /\ ty = y s))
    /\ page s' = pg
    /\ x s' = match nx with
              | XLEFT => x s
              | XRIGHT => x s + (if Qeq_bool w 0
                                 then page_w - r_margin - x s else w)
              | XLMARGIN => l_margin
              end
    /\ y s' = match ny with YTOP => ty | YNEXT => ty + h end
    /\ same_graphics (line_state h s) s'
    /\ style_of s' = style_of s.
Proof.
  intros [Hp Hf]. rewrite cell_ok by assumption.
  destruct (line_state_cases h s Hf) as (Hc & Hx & Hs).
  destruct (style_fields _ _ Hs) as (F1 & F2 & F3 & F4).
  exists (render_line w h txt al nx ny s).
  exists (if will_page_break h s
          then furniture (page s) (draw_color s) else []),
         (page (line_state h s)), (y (line_state h s)).
  split; [reflexivity |].
  rewrite render_line_out, Hx, F1, F2, F3, F4.
  split.
  { destruct Hc as [(B & -> & _) | (B & -> & _)].
    - apply will_page_break_iff in B. rewrite B. now rewrite <- app_assoc.
    - destruct (will_page_break h s) eqn:E;
        [apply will_page_break_iff in E; contradiction |].
      now rewrite <- app_assoc. }
  split.
  { destruct Hc as [(B & _ & P & Y) | (B & _ & P & Y)].
    - left. pose proof B as B'. apply will_page_break_iff in B'.
      rewrite B'. auto.
    - right. destruct (will_page_break h s) eqn:E;
        [apply will_page_break_iff in E; contradiction | auto]. }
  unfold render_line. fold (line_state h s).
  split; [reflexivity |].
  split; [cbn [cell_draw with_xy x]; rewrite Hx; reflexivity |].
  split; [reflexivity |].
  split; [apply same_graphics_cell_draw |].
  destruct (same_graphics_cell_draw Body w h txt al nx ny (line_state h s))
    as [A _].
  now rewrite A.
Qed.

(** X3.  A cell is never cut by a page break.  On an open page with a font
    set, [cell] returns normally and draws one text, in the current font
    and text colour, at the abscissa of the cursor.  Either the page is
    finished first (footer, new page, header) and the whole cell is drawn
    at the top of the content area of the new page: then the automatic
    page break is on and the cell would have ended below the trigger, or
    within [slack] of it; or the cell is drawn at the cursor on the
    current page: then the automatic page break is off, or the cell ends
    above the trigger, or within [slack] of it.  (The program adds in
    floating point; within [slack] of the trigger either may happen.) *)
Theorem cell_moves_whole w h txt al nx ny (s : pdf) :
  (0 < page s)%nat ->
  font_family s <> "" ->
  exists s' pre pg ty,
    cell w h txt al nx ny s = Ok s'
    /\ out s'
       = (out s ++ pre
          ++ [mkEntry pg Body
                (Text (x s) ty
                   (if Qeq_bool w 0 then page_w - r_margin - x s else w)
                   h txt al (font_family s) (font_style s) (font_size_pt s)
                   (text_color s))])%list
    /\ ((auto_page_break s = true
         /\ page_break_trigger s - slack <= y s + h
         /\ pre = furniture (page s) (draw_color s)
         /\ pg = S (page s) /\ ty = top_of_content)
        \/ ((auto_page_break s = true
             -> y s + h <= page_break_trigger s + slack)
            /\ pre = [] /\ pg = page s /\ ty = y s))
    /\ page s' = pg.
Proof.
  intros Hp Hf.
  destruct (cell_out w h txt al nx ny s (conj Hp Hf))
    as (s' & pre & pg & ty & E & O & C & P & _).
  exists s', pre, pg, ty.
  split; [exact E |]. split; [exact O |]. split; [| exact P].
  unfold must_break in C.
  destruct C as [((A & B) & C1 & C2 & C3) | (A & C1 & C2 & C3)].
  - left. repeat split; try assumption. unfold slack. lra.
  - right. repeat split; try assumption.
    intros B. assert (N : ~ page_break_trigger s < y s + h) by tauto.
    apply Qnot_lt_le in N. unfold slack. lra.
Qed.

Lemma cell_moves_whole_witness :
  exists s' pre pg ty,
    cell 0 8 "Auteur" AlignC XLMARGIN YNEXT title_state = Ok s'
    /\ out s'
       = (out title_state ++ pre
          ++ [mkEntry pg Body
                (Text (x title_state) ty
                   (if Qeq_bool 0 0
                    then page_w - r_margin - x title_state else 0)
                   8 "Auteur" AlignC (font_family title_state)
                   (font_style title_state) (font_size_pt title_state)
                   (text_color title_state))])%list
    /\ ((auto_page_break title_state = true
         /\ page_break_trigger title_state - slack <= y title_state + 8
         /\ pre = furniture (page title_state) (draw_color title_state)
         /\ pg = S (page title_state) /\ ty = top_of_content)
        \/ ((auto_page_break title_state = true
             -> y title_state + 8 <= page_break_trigger title_state + slack)
            /\ pre = [] /\ pg = page title_state /\ ty = y title_state))
    /\ page s' = pg.
Proof.
  apply (cell_moves_whole 0 8 "Auteur" AlignC XLMARGIN YNEXT title_state).
  - vm_compute. lia.
  - vm_compute. discriminate.
Defined.

(** X4.  Text never runs into the footer.  With the automatic page break
    on and the bottom margin of 20, a cell at most 258 high drawn from
    below the top margin ends at least 3 mm above the rule of the footer,
    on whichever page it lands. *)
Theorem cell_clear_of_footer w h txt al nx ny (s : pdf) :
  (0 < page s)%nat ->
  font_family s <> "" ->
  auto_page_break s = true ->
  b_margin s == 20 ->
  t_margin < y s ->
  h <= 258 ->
  exists s' pre e,
    cell w h txt al nx ny s = Ok s'
    /\ out s' = (out s ++ pre ++ [e])%list
    /\ body pre = []
    /\ origin e = Body
    /\ prim_bottom (what e) + 3 <= page_h + -15 - 2.
Proof.
  intros Hp Hf Ha Hb Hy Hh.
  destruct (cell_out w h txt al nx ny s (conj Hp Hf))
    as (s' & pre & pg & ty & E & O & C & _).
  eexists s', pre, _. split; [exact E |]. split; [exact O |].
  pose proof page_h_a4 as H297.
  split; [| split; [reflexivity |]].
  - destruct C as [(_ & -> & _) | (_ & -> & _)];
      [apply body_furniture | reflexivity].
  - cbn [what prim_bottom].
    destruct C as [(_ & _ & _ & ->) | (B & _ & _ & ->)].
    + unfold top_of_content, t_margin. lra.
    + unfold must_break, page_break_trigger in B.
      assert (~ page_h - b_margin s < y s + h) by tauto.
      apply Qnot_lt_le in H. lra.
Qed.

Lemma cell_clear_of_footer_witness :
  exists s' pre e,
    cell 0 8 "Auteur" AlignC XLMARGIN YNEXT title_state = Ok s'
    /\ out s' = (out title_state ++ pre ++ [e])%list
    /\ body pre = []
    /\ origin e = Body
    /\ prim_bottom (what e) + 3 <= page_h + -15 - 2.
Proof.
  apply (cell_clear_of_footer 0 8 "Auteur" AlignC XLMARGIN YNEXT title_state).
  - vm_compute. lia.
  - vm_compute. discriminate.
  - vm_compute. reflexivity.
  - vm_compute. reflexivity.
  - vm_compute. reflexivity.
  - vm_compute. discriminate.
Defined.

(** ** Headings *)

(** The title cell of a heading: [ln(a)] then a full-width cell of height
    [h] from the left margin. *)
Lemma heading_cell (a h : Q) (t : string) (s0 : pdf) :
  ready s0 ->
  exists s2 pre ty,
    cell 0 h t AlignL XLMARGIN YNEXT (ln_move a s0) = Ok s2
    /\ out s2
       = (out s0 ++ pre
          ++ [mkEntry (page s2) Body
                (Text l_margin ty (page_w - r_margin - l_margin) h t AlignL
                   (font_family s0) (font_style s0) (font_size_pt s0)
                   (text_color s0))])%list
    /\ body pre = []
    /\ (ty = y s0 + a \/ ty = top_of_content)
    /\ x s2 = l_margin /\ y s2 = ty + h
    /\ (0 < page s2)%nat.
Proof.
  intros R.
  destruct (cell_out 0 h t AlignL XLMARGIN YNEXT (ln_move a s0) R)
    as (s2 & pre & pg & ty & E & O & C & P & X & Y & _).
  exists s2, pre, ty. split; [exact E |].
  split; [rewrite P; exact O |].
  destruct R as [Hp _]. change (page (ln_move a s0)) with (page s0) in C.
  change (y (ln_move a s0)) with (y s0 + a) in C.
  split; [destruct C as [(_ & -> & _) | (_ & -> & _)];
          [apply body_furniture | reflexivity] |].
  split; [destruct C as [(_ & _ & _ & ->) | (_ & _ & _ & ->)]; auto |].
  split; [exact X |]. split; [exact Y |].
  rewrite P. destruct C as [(_ & _ & -> & _) | (_ & _ & -> & _)]; lia.
Qed.

(** X5.  The layout of a heading on an open page.  A heading of level 1
    draws its title in Helvetica bold 16, in a cell 10 high from the left
    margin to the right margin, and then a rule from 10 to 200 exactly at
    the bottom of that cell, on the same page, even when the title was
    moved to a new page; the cursor ends 4 below the rule, at the left
    margin.  The title cell starts 4 below the cursor, or at the top of
    the content area after a page break.  Levels 2 and 3 draw the title
    alone (bold 13 in a cell 8 high after a space of 3, bold 11 in a cell
    7 high after a space of 2) and end 2 and 1 below it.  Any other level
    draws nothing and changes nothing. *)
Theorem heading_layout (t : string) (s : pdf) :
  (0 < page s)%nat ->
  (exists s' d ty,
     chapter_title t 1 s = Ok s'
     /\ out s' = (out s ++ d)%list
     /\ body d
        = [ mkEntry (page s') Body
              (Text l_margin ty (page_w - r_margin - l_margin) 10 t AlignL
                 "Helvetica" "B" 16 (25, 55, 120)%Z);
            mkEntry (page s') Body
              (Line 10 (ty + 10) 200 (ty + 10) (25, 55, 120)%Z) ]
     /\ (ty = y s + 4 \/ ty = top_of_content)
     /\ x s' = l_margin /\ y s' = ty + 10 + 4)
  /\ (exists s' d ty,
        chapter_title t 2 s = Ok s'
        /\ out s' = (out s ++ d)%list
        /\ body d
           = [ mkEntry (page s') Body
                 (Text l_margin ty (page_w - r_margin - l_margin) 8 t AlignL
                    "Helvetica" "B" 13 (40, 80, 150)%Z) ]
        /\ (ty = y s + 3 \/ ty = top_of_content)
        /\ x s' = l_margin /\ y s' = ty + 8 + 2)
  /\ (exists s' d ty,
        chapter_title t 3 s = Ok s'
        /\ out s' = (out s ++ d)%list
        /\ body d
           = [ mkEntry (page s') Body
                 (Text l_margin ty (page_w - r_margin - l_margin) 7 t AlignL
                    "Helvetica" "B" 11 (60, 100, 170)%Z) ]
        /\ (ty = y s + 2 \/ ty = top_of_content)
        /\ x s' = l_margin /\ y s' = ty + 7 + 1)
  /\ (forall lv, lv <> 1%Z -> lv <> 2%Z -> lv <> 3%Z ->
        chapter_title t lv s = Ok s).
Proof.
  intros Hp. split; [| split; [| split]].
  - unfold chapter_title. cbn [Z.eqb Pos.eqb].
    set (s0 := set_text_color 25 55 120 (set_font "Helvetica" "B" 16 s)).
    assert (R : ready s0) by (split; [exact Hp | discriminate]).
    rewrite ln_ok by apply R. cbn [bind].
    destruct (heading_cell 4 10 t s0 R)
      as (s2 & pre & ty & E & O & B & T & X & Y & P).
    rewrite E. cbn [bind].
    rewrite line_ok by exact P. cbn [bind].
    rewrite ln_ok by exact P.
    eexists.
    exists (pre
            ++ [mkEntry (page s2) Body
                  (Text l_margin ty (page_w - r_margin - l_margin) 10 t
                     AlignL "Helvetica" "B" 16 (25, 55, 120)%Z)]
            ++ [mkEntry (page s2) Body
                  (Line 10 (ty + 10) 200 (ty + 10) (25, 55, 120)%Z)])%list,
           ty.
    split; [reflexivity |].
    split.
    { cbn [out ln_move with_xy line_draw emit set_draw_color get_y draw_color
           page y].
      rewrite O. change (out s0) with (out s). rewrite Y.
      rewrite <- !app_assoc. reflexivity. }
    split.
    { rewrite body_app, B. reflexivity. }
    split; [exact T |]. split; [reflexivity |].
    cbn [y ln_move with_xy line_draw emit set_draw_color]. now rewrite Y.
  - unfold chapter_title. cbn [Z.eqb Pos.eqb].
    set (s0 := set_text_color 40 80 150 (set_font "Helvetica" "B" 13 s)).
    assert (R : ready s0) by (split; [exact Hp | discriminate]).
    rewrite ln_ok by apply R. cbn [bind].
    destruct (heading_cell 3 8 t s0 R)
      as (s2 & pre & ty & E & O & B & T & X & Y & P).
    rewrite E. cbn [bind]. rewrite ln_ok by exact P.
    eexists.
    exists (pre
            ++ [mkEntry (page s2) Body
                  (Text l_margin ty (page_w - r_margin - l_margin) 8 t
                     AlignL "Helvetica" "B" 13 (40, 80, 150)%Z)])%list,
           ty.
    split; [reflexivity |].
    split; [exact O |].
    split; [rewrite body_app, B; reflexivity |].
    split; [exact T |]. split; [reflexivity |].
    cbn [y ln_move with_xy]. now rewrite Y.
  - unfold chapter_title. cbn [Z.eqb Pos.eqb].
    set (s0 := set_text_color 60 100 170 (set_font "Helvetica" "B" 11 s)).
    assert (R : ready s0) by (split; [exact Hp | discriminate]).
    rewrite ln_ok by apply R. cbn [bind].
    destruct (heading_cell 2 7 t s0 R)
      as (s2 & pre & ty & E & O & B & T & X & Y & P).
    rewrite E. cbn [bind]. rewrite ln_ok by exact P.
    eexists.
    exists (pre
            ++ [mkEntry (page s2) Body
                  (Text l_margin ty (page_w - r_margin - l_margin) 7 t
                     AlignL "Helvetica" "B" 11 (60, 100, 170)%Z)])%list,
           ty.
    split; [reflexivity |].
    split; [exact O |].
    split; [rewrite body_app, B; reflexivity |].
    split; [exact T |]. split; [reflexivity |].
    cbn [y ln_move with_xy]. now rewrite Y.
  - intros lv H1 H2 H3. unfold chapter_title.
    apply Z.eqb_neq in H1, H2, H3. now rewrite H1, H2, H3.
Qed.

Lemma heading_layout_witness :
  (exists s' d ty,
     chapter_title "Intro" 1 first_page = Ok s'
     /\ out s' = (out first_page ++ d)%list
     /\ body d
        = [ mkEntry (page s') Body
              (Text l_margin ty (page_w - r_margin - l_margin) 10 "Intro" AlignL
                 "Helvetica" "B" 16 (25, 55, 120)%Z);
            mkEntry (page s') Body
              (Line 10 (ty + 10) 200 (ty + 10) (25, 55, 120)%Z) ]
     /\ (ty = y first_page + 4 \/ ty = top_of_content)
     /\ x s' = l_margin /\ y s' = ty + 10 + 4)
  /\ (exists s' d ty,
        chapter_title "Intro" 2 first_page = Ok s'
        /\ out s' = (out first_page ++ d)%list
        /\ body d
           = [ mkEntry (page s') Body
                 (Text l_margin ty (page_w - r_margin - l_margin) 8 "Intro" AlignL
                    "Helvetica" "B" 13 (40, 80, 150)%Z) ]
        /\ (ty = y first_page + 3 \/ ty = top_of_content)
        /\ x s' = l_margin /\ y s' = ty + 8 + 2)
  /\ (exists s' d ty,
        chapter_title "Intro" 3 first_page = Ok s'
        /\ out s' = (out first_page ++ d)%list
        /\ body d
           = [ mkEntry (page s') Body
                 (Text l_margin ty (page_w - r_margin - l_margin) 7 "Intro" AlignL
                    "Helvetica" "B" 11 (60, 100, 170)%Z) ]
        /\ (ty = y first_page + 2 \/ ty = top_of_content)
        /\ x s' = l_margin /\ y s' = ty + 7 + 1)
  /\ (forall lv, lv <> 1%Z -> lv <> 2%Z -> lv <> 3%Z ->
        chapter_title "Intro" lv first_page = Ok first_page).
Proof.
  apply (heading_layout "Intro" first_page).
  vm_compute. lia.
Defined.

(** ** The lines of a code block *)

Lemma split_nl_cons (s : string) : exists l ls, split_nl s = l :: ls.
Proof.
  induction s as [| c s IH]; cbn; [eauto |].
  destruct (Ascii.eqb c newline); [eauto |].
  destruct IH as (l & ls & ->). eauto.
Qed.

Lemma split_nl_length (s : string) :
  List.length (split_nl s) = S (count_nl s).
Proof.
  induction s as [| c s IH]; cbn; [reflexivity |].
  destruct (Ascii.eqb c newline); cbn; [now rewrite IH |].
  destruct (split_nl_cons s) as (l & ls & E). rewrite E in *. exact IH.
Qed.

Lemma concat_cons_char (c : ascii) (l : string) (ls : list string) :
  String.concat nl (String c l :: ls) = String c (String.concat nl (l :: ls)).
Proof. destruct ls; reflexivity. Qed.

(** X6.  Splitting a code into lines loses nothing: joining the lines that
    [code_block] measures and draws with newlines gives back the code,
    character for character. *)
Theorem split_nl_join (c : string) : String.concat nl (split_nl c) = c.
Proof.
  induction c as [| a c IH]; [reflexivity |].
  cbn [split_nl]. destruct (Ascii.eqb a newline) eqn:E.
  - apply Ascii.eqb_eq in E. subst a.
    destruct (split_nl_cons c) as (l & ls & El). rewrite El in *.
    change (String.concat nl ("" :: l :: ls))
      with (String newline (String.concat nl (l :: ls))).
    now rewrite IH.
  - destruct (split_nl_cons c) as (l & ls & El). rewrite El in *.
    now rewrite concat_cons_char, IH.
Qed.

(** X7.  The height [code_block] measures depends on the newlines alone:
    8.2 for a code without newline, the empty code included, and 4.2 more
    for every newline, a final one included (it counts as an empty last
    line). *)
Theorem code_height_counts_newlines (c : string) :
  List.length (split_nl c) = S (count_nl c)
  /\ code_height c == 8.2 + 4.2 * inject_Z (Z.of_nat (count_nl c))
  /\ 8.2 <= code_height c.
Proof.
  pose proof (split_nl_length c) as L.
  assert (H : code_height c == 8.2 + 4.2 * inject_Z (Z.of_nat (count_nl c))).
  { unfold code_height. rewrite L, Nat2Z.inj_succ. unfold Z.succ.
    rewrite inject_Z_plus. ring. }
  split; [exact L |]. split; [exact H |].
  rewrite H.
  assert (0 <= inject_Z (Z.of_nat (count_nl c))).
  { change 0 with (inject_Z 0). rewrite <- Zle_Qle. lia. }
  lra.
Qed.

(** ** The rows of the table of contents *)

Lemma length_append (a b : string) :
  String.length (a ++ b) = (String.length a + String.length b)%nat.
Proof. induction a as [| c a IH]; cbn; [reflexivity | now rewrite IH]. Qed.

Lemma toc_dots_length (num title : string) :
  String.length (toc_dots num title)
  = (70 - (String.length num + String.length title))%nat.
Proof.
  unfold toc_dots, str_mul, len.
  destruct (70 - Z.of_nat (String.length num)
            - Z.of_nat (String.length title) <=? 0)%Z eqn:E.
  - apply Z.leb_le in E. change (String.length "") with 0%nat. lia.
  - apply Z.leb_gt in E. rewrite repeat_string_length. lia.
Qed.

(** X8.  The page numbers of the table of contents line up.  Whenever the
    number and the title of a row take at most 70 characters together, the
    page number starts at character 74 of the row, whatever the row; a
    longer row is not cut: it keeps its number and title whole and the
    page number follows them after the fixed separators. *)
Theorem toc_text_length (num title : string) (pg : Z) :
  exists lead,
    toc_text num title pg = lead ++ string_of_Z pg
    /\ String.length lead
       = (Nat.max 70 (String.length num + String.length title) + 4)%nat
    /\ String.prefix (num ++ "  " ++ title ++ " ") lead = true.
Proof.
  exists (num ++ "  " ++ title ++ " " ++ toc_dots num title ++ " ").
  split; [| split].
  - unfold toc_text.
    assert (A : forall a b c : string, (a ++ b) ++ c = a ++ b ++ c).
    { intros a b c. induction a as [| ch a IH]; cbn; [reflexivity |].
      now rewrite IH. }
    rewrite !A. reflexivity.
  - rewrite !length_append, toc_dots_length. cbn [String.length]. lia.
  - assert (P : forall a b : string, String.prefix a (a ++ b) = true).
    { intros a b. induction a as [| ch a IH]; cbn; [now destruct b |].
      destruct (ascii_dec ch ch); [exact IH | congruence]. }
    assert (A : forall a b c : string, (a ++ b) ++ c = a ++ b ++ c).
    { intros a b c. induction a as [| ch a IH]; cbn; [reflexivity |].
      now rewrite IH. }
    replace (num ++ "  " ++ title ++ " " ++ toc_dots num title ++ " ")
      with ((num ++ "  " ++ title ++ " ") ++ toc_dots num title ++ " ")
      by (rewrite !A; reflexivity).
    apply P.
Qed.





(** The loop of [code_block], whatever the number of lines: one text per
    line, in order, at the text abscissa, in a cell that reaches the right
    margin. *)
Lemma code_lines_boxes x0 (ls : list string) (s : pdf) :
  ready s -> 0 <= x0 + 3 -> x s = x0 + 3 ->
  exists s' d,
    code_lines x0 ls s = Ok s'
    /\ out s' = (out s ++ d)%list
    /\ map box (body d)
       = map (fun l => Some (x0 + 3, page_w - r_margin - (x0 + 3), l)) ls.
Proof.
  revert s. induction ls as [| l ls IH]; intros s R Hx Xs.
  - exists s, []. cbn [code_lines]. now rewrite app_nil_r.
  - cbn [code_lines]. rewrite cell_ok by apply R. cbn [bind].
    destruct (render_line_box 0 4.2 l AlignL XLMARGIN YNEXT s)
      as (d1 & O1 & B1).
    change (Qeq_bool 0 0) with true in B1. rewrite Xs in B1.
    set (s1 := set_x (x0 + 3) (render_line 0 4.2 l AlignL XLMARGIN YNEXT s)).
    assert (R1 : ready s1).
    { exact (keeps_ready _ _ R
               (keeps_render_line 0 4.2 l AlignL XLMARGIN YNEXT s R)). }
    assert (X1 : x s1 = x0 + 3).
    { unfold s1, set_x. rewrite (proj2 (Qle_bool_iff 0 (x0 + 3)) Hx).
      reflexivity. }
    destruct (IH s1 R1 Hx X1) as (s' & d2 & E & O2 & B2).
    exists s', (d1 ++ d2)%list. split; [exact E |].
    split.
    { rewrite O2. change (out s1)
        with (out (render_line 0 4.2 l AlignL XLMARGIN YNEXT s)).
      now rewrite O1, <- app_assoc. }
    rewrite body_app, map_app, B1, B2. reflexivity.
Qed.

(** X10.  A code block is drawn verbatim, whatever its length.  On an open
    page with the cursor at a non-negative abscissa, [code_block] returns
    normally; what it draws is the border, 180 wide from 5 right of the
    cursor, and then exactly one text per line of the code, in order:
    no line is wrapped, merged or dropped, each starts 3 inside the left
    edge of the border, and each cell reaches the right margin. *)
Theorem code_block_verbatim (c : string) (s : pdf) :
  (0 < page s)%nat ->
  0 <= x s ->
  exists s' d pg ry texts,
    code_block c s = Ok s'
    /\ out s' = (out s ++ d)%list
    /\ body d
       = mkEntry pg Body
           (Rect (x s + 5) ry 180 (code_height c) "DF" code_stroke code_fill)
         :: texts
    /\ map box texts
       = map (fun l => Some (x s + 5 + 3,
                             page_w - r_margin - (x s + 5 + 3), l))
           (split_nl c).
Proof.
  intros Hp Hx. rewrite code_block_unfold.
  pose proof (border_context_ready c s Hp) as R.
  destruct (border_context_colors c s) as [Hd Hf].
  destruct (border_context_cases c s) as [Hc _].
  rewrite rect_ok by apply R. cbn [bind]. rewrite Hd, Hf.
  set (bc := border_context c s) in *.
  set (s2 := set_xy _ _ (emit Body _ _)).
  assert (O2 : out s2
               = (out bc
                  ++ [mkEntry (page bc) Body
                        (Rect (x s + 5) (y bc) 180 (code_height c) "DF"
                           code_stroke code_fill)])%list)
    by reflexivity.
  assert (X2 : x s2 = x s + 5 + 3).
  { unfold s2, set_xy, set_x.
    rewrite (proj2 (Qle_bool_iff 0 (x s + 5 + 3))) by lra. reflexivity. }
  assert (R2 : ready s2) by exact R.
  destruct (code_lines_boxes (x s + 5) (split_nl c) s2 R2)
    as (s3 & d3 & E3 & O3 & B3); [lra | exact X2 |].
  rewrite E3. cbn [bind].
  assert (P3 : (0 < page s3)%nat).
  { pose proof (page_adv _ _ (adv_code_lines _ _ _ _ E3)).
    destruct R2 as [P2 _]. lia. }
  rewrite ln_ok by exact P3.
  assert (Hpre : exists pre, out bc = (out s ++ pre)%list /\ body pre = []).
  { destruct Hc as [(_ & -> & _) | (_ & -> & _)].
    - exists (furniture (page s) code_stroke).
      split; [reflexivity | apply body_furniture].
    - exists []. split; reflexivity. }
  destruct Hpre as (pre & Opre & Bpre).
  exists (ln_move 3 s3),
         (pre ++ [mkEntry (page bc) Body
                    (Rect (x s + 5) (y bc) 180 (code_height c) "DF"
                       code_stroke code_fill)] ++ d3)%list,
         (page bc), (y bc), (body d3).
  split; [reflexivity |].
  change (out (ln_move 3 s3)) with (out s3).
  split; [rewrite O3, O2, Opre, <- !app_assoc; reflexivity |].
  split; [rewrite body_app, Bpre, body_app; reflexivity |].
  exact B3.
Qed.

Lemma code_block_verbatim_witness :
  exists s' d pg ry texts,
    code_block five_lines first_page = Ok s'
    /\ out s' = (out first_page ++ d)%list
    /\ body d
       = mkEntry pg Body
           (Rect (x first_page + 5) ry 180 (code_height five_lines) "DF"
              code_stroke code_fill)
         :: texts
    /\ map box texts
       = map (fun l => Some (x first_page + 5 + 3,
                             page_w - r_margin - (x first_page + 5 + 3), l))
           (split_nl five_lines).
Proof.
  apply (code_block_verbatim five_lines first_page).
  - vm_compute. lia.
  - vm_compute. discriminate.
Defined.

Lemma code_lines_fit_cursor x0 (ls : list string) (s : pdf) :
  (0 < page s)%nat -> font_family s <> "" ->
  y s + lines_height (List.length ls) <= page_break_trigger s ->
  exists s',
    code_lines x0 ls s = Ok s'
    /\ y s' == y s + lines_height (List.length ls)
    /\ page s' = page s.
Proof.
  revert s. induction ls as [| l ls IH]; intros s Hp Hf Hy.
  - exists s. cbn [code_lines List.length]. repeat split.
    unfold lines_height. cbn. ring.
  - cbn [code_lines List.length] in *.
    rewrite cell_ok by assumption. cbn [bind].
    rewrite lines_height_S in Hy.
    pose proof (lines_height_nonneg (List.length ls)) as Hn.
    unfold render_line. rewrite will_page_break_fits by lra.
    set (s1 := set_x (x0 + 3)
                 (cell_draw Body 0 4.2 l AlignL XLMARGIN YNEXT s)).
    assert (Y1 : y s1 = y s + 4.2) by reflexivity.
    destruct (IH s1) as (s' & E & Y & P).
    + exact Hp.
    + exact Hf.
    + rewrite Y1. change (page_break_trigger s1) with (page_break_trigger s).
      lra.
    + exists s'. split; [exact E |]. split; [| exact P].
      rewrite Y, Y1, lines_height_S. ring.
Qed.

(** X11.  Where a code block leaves the cursor.  Under the conditions in
    which the block stays on one page (open page, cursor at a non-negative
    height, bottom margin 20, at most 60 lines), [code_block] leaves the
    cursor at the left margin, 1 below the bottom edge of the border it
    drew, on the page of the border: the next page, at the top of the
    content area, or the current page, at the cursor, as the sum of
    cursor height and block height lies above or below 270 (within
    [slack] of 270 the program's floating-point sum may fall on either
    side). *)
Theorem code_block_cursor_after (c : string) (s : pdf) :
  (0 < page s)%nat ->
  0 <= y s ->
  b_margin s == 20 ->
  (List.length (split_nl c) <= 60)%nat ->
  exists s' top,
    code_block c s = Ok s'
    /\ ((270 - slack <= y s + code_height c /\ top = top_of_content
         /\ page s' = S (page s))
        \/ (y s + code_height c <= 270 + slack
            /\ top = y s /\ page s' = page s))
    /\ y s' == top + code_height c + 1
    /\ x s' = l_margin.
Proof.
  intros Hp Hy Hb Hn. rewrite code_block_unfold.
  pose proof (border_context_ready c s Hp) as R.
  destruct (border_context_cases c s) as [Hc Hm].
  rewrite rect_ok by apply R. cbn [bind].
  set (bc := border_context c s) in *.
  set (n := List.length (split_nl c)) in *.
  pose proof (lines_height_le n 60 Hn) as Hl.
  rewrite lines_height_60 in Hl.
  pose proof (lines_height_nonneg n) as Hl0.
  pose proof page_h_a4 as Ha.
  assert (Hh : code_height c = lines_height n + 4) by reflexivity.
  assert (Htop : 0 <= y bc /\ y bc + 2 + lines_height n + 2 + 20 <= page_h).
  { rewrite Hh in *.
    destruct Hc as [(A & _ & _ & ->) | (A & _ & _ & ->)].
    - unfold top_of_content, t_margin. split; lra.
    - split; lra. }
  destruct Htop as (Hy0 & Hy1).
  set (s2 := set_xy _ _ (emit Body _ _)).
  assert (Y2 : y s2 = y bc + 2).
  { unfold s2, set_xy, set_x, set_y. cbn [with_xy y].
    assert (Q0 : Qle_bool 0 (y bc + 2) = true) by (apply Qle_bool_iff; lra).
    now rewrite Q0. }
  destruct (code_lines_fit_cursor (x s + 5) (split_nl c) s2)
    as (s3 & E3 & Y3 & P3).
  - apply R.
  - apply R.
  - rewrite Y2. unfold page_break_trigger.
    change (b_margin s2) with (b_margin bc). rewrite Hm. fold n. lra.
  - rewrite E3. cbn [bind].
    rewrite ln_ok by (rewrite P3; apply R).
    exists (ln_move 3 s3), (y bc).
    split; [reflexivity |].
    change (page (ln_move 3 s3)) with (page s3).
    change (page s2) with (page bc) in P3. rewrite P3.
    split.
    { destruct Hc as [(A & _ & B & C) | (A & _ & B & C)];
        [left | right]; (split; [unfold slack; lra | auto]). }
    split; [| reflexivity].
    change (y (ln_move 3 s3)) with (y s3 + 3).
    rewrite Y3, Y2, Hh. fold n. ring.
Qed.

Lemma code_block_cursor_after_witness :
  exists s' top,
    code_block five_lines low_on_page = Ok s'
    /\ ((270 - slack <= y low_on_page + code_height five_lines
         /\ top = top_of_content
         /\ page s' = S (page low_on_page))
        \/ (y low_on_page + code_height five_lines <= 270 + slack
            /\ top = y low_on_page /\ page s' = page low_on_page))
    /\ y s' == top + code_height five_lines + 1
    /\ x s' = l_margin.
Proof.
  apply (code_block_cursor_after five_lines low_on_page).
  - vm_compute. lia.
  - vm_compute. discriminate.
  - vm_compute. reflexivity.
  - vm_compute. lia.
Defined.

(** ** Where the paragraph renderers leave the cursor *)

Lemma at_least_one_cons (ls : list text_line) :
  exists l ls', at_least_one ls = l :: ls'.
Proof. destruct ls; cbn; eauto. Qed.






(** ** What a new page changes *)

(** X13.  A page break is invisible to the content.  [add_page] draws the
    footer and the header in their own font and colour, and afterwards the
    text, draw and fill colours, the settings of the automatic page break
    and the alias are those of before; so is the font, when one was set
    (with no font set yet, as on the very first page, the font of the
    header, Helvetica italic 8, stays).  The page number goes up by one
    and the cursor is at the left margin, at the top of the content area,
    6 below the rule of the header. *)
Theorem page_break_keeps_graphics (s : pdf) :
  style_of (add_page s)
  = (if String.eqb (font_family s) ""
     then ("Helvetica", "I", 8%Z, text_color s) else style_of s)
  /\ draw_color (add_page s) = draw_color s
  /\ fill_color (add_page s) = fill_color s
  /\ auto_page_break (add_page s) = auto_page_break s
  /\ b_margin (add_page s) = b_margin s
  /\ str_alias_nb_pages (add_page s) = str_alias_nb_pages s
  /\ page (add_page s) = S (page s)
  /\ x (add_page s) = l_margin
  /\ y (add_page s) = top_of_content
  /\ top_of_content == 13 + 6.
Proof.
  destruct (add_page_colors s) as (A & B & C).
  destruct (add_page_config s) as (D & E & F).
  split.
  - destruct (String.eqb (font_family s) "") eqn:Ef.
    + with_strategy transparent [add_page]
        (unfold add_page, style_of;
         destruct (0 <? page s)%nat; cbn; rewrite Ef; reflexivity).
    + apply String.eqb_neq in Ef. apply add_page_graphics, Ef.
  - split; [exact B |]. split; [exact C |]. split; [exact D |].
    split; [exact E |]. split; [exact F |].
    split; [apply add_page_page |]. split; [apply add_page_x |].
    split; [apply add_page_y |]. vm_compute. reflexivity.
Qed.

(** ** What the resolution of the alias leaves alone *)

Lemma replace_brace_free (total txt : string) :
  brace_free txt -> replace "{nb}" total txt = txt.
Proof.
  intros H. unfold replace.
  rewrite <- (append_empty_r txt) at 1.
  rewrite replace_from_brace_free by assumption.
  cbn. apply append_empty_r.
Qed.

Lemma resolve_unaffected (total : string) (e : entry) :
  unaffected e -> resolve_entry "{nb}" total e = e.
Proof.
  destruct e as [pg r p]. unfold unaffected, resolve_entry. cbn [what].
  destruct p; intros H; cbn [resolve_prim on_page origin what];
    [| reflexivity | reflexivity].
  now rewrite replace_brace_free.
Qed.

Lemma footer_alias (s : pdf) :
  str_alias_nb_pages (footer s) = str_alias_nb_pages s.
Proof. reflexivity. Qed.

Lemma output_content (s : pdf) :
  str_alias_nb_pages s = "{nb}" ->
  exists d total,
    content (output s)
    = map (resolve_entry "{nb}" total) (out s ++ d)%list.
Proof.
  intros Ha.
  set (s0 := if (page s =? 0)%nat then add_page s else s).
  assert (H0 : exists d0, out s0 = (out s ++ d0)%list
                          /\ str_alias_nb_pages s0 = "{nb}").
  { unfold s0. destruct (page s =? 0)%nat.
    - exists (furniture (page s) (draw_color s)).
      split; [apply add_page_out |].
      now rewrite (proj2 (proj2 (add_page_config s))).
    - exists []. now rewrite app_nil_r. }
  destruct H0 as (d0 & O0 & A0).
  change (output s)
    with {| page_count := page (footer s0);
            content := map (resolve_entry (str_alias_nb_pages (footer s0))
                              (string_of_nat (page (footer s0))))
                           (out (footer s0)) |}.
  cbn [content]. rewrite footer_alias, A0, footer_out, O0, <- app_assoc.
  eexists. eexists. reflexivity.
Qed.

(** X14.  Resolving the total-page alias touches nothing else.  Whatever
    the content calls drew, every rule, every rectangle and every text
    without an opening brace is in the finished document exactly as it was
    drawn: same page, same place, same text, same style. *)
Theorem output_keeps_unaffected (M : metrics) (cs : list call) (s : pdf)
    (e : entry) :
  run M cs report_pdf = Ok s ->
  In e (out s) ->
  unaffected e ->
  In e (content (output s)).
Proof.
  intros Hrun Hin Hu.
  assert (Ha : str_alias_nb_pages s = "{nb}").
  { rewrite (alias_adv _ _ (adv_run _ _ _ _ Hrun)). reflexivity. }
  destruct (output_content s Ha) as (d & total & ->).
  rewrite <- (resolve_unaffected total e Hu).
  apply in_map, in_or_app. now left.
Qed.

Lemma output_keeps_unaffected_witness :
  In (mkEntry 1 Header (Line 10 13 200 13 (0, 0, 0)%Z))
     (content (output first_page)).
Proof.
  apply (output_keeps_unaffected fixed_metrics [AddPage] first_page
           (mkEntry 1 Header (Line 10 13 200 13 (0, 0, 0)%Z))).
  - reflexivity.
  - vm_compute. right. right. left. reflexivity.
  - exact I.
Defined.

(** ** The height of a paragraph *)

Lemma para_height_S (n : nat) : para_height (S n) == para_height n + 5.5.
Proof.
  unfold para_height. rewrite Nat2Z.inj_succ. unfold Z.succ.
  rewrite inject_Z_plus. ring.
Qed.

Lemma para_height_nonneg (n : nat) : 0 <= para_height n.
Proof.
  unfold para_height.
  assert (0 <= inject_Z (Z.of_nat n)).
  { change 0 with (inject_Z 0). rewrite <- Zle_Qle. lia. }
  nra.
Qed.

Lemma multi_cell_lines_fit w (ls : list text_line) (s : pdf) :
  y s + para_height (List.length ls) <= page_break_trigger s ->
  exists texts,
    out (multi_cell_lines w 5.5 ls s) = (out s ++ texts)%list
    /\ page (multi_cell_lines w 5.5 ls s) = page s
    /\ y (multi_cell_lines w 5.5 ls s) == y s + para_height (List.length ls)
    /\ map (fun e => text_of (what e)) texts
       = map (fun l => Some (line_text l)) ls
    /\ Forall (placed (page s) (y s)
                 (y s + para_height (List.length ls))) texts.
Proof.
  revert s. induction ls as [| l ls IH]; intros s Hy.
  - exists []. cbn [multi_cell_lines List.length map]. rewrite app_nil_r.
    repeat split; [| constructor]. unfold para_height. cbn. ring.
  - cbn [List.length] in Hy. rewrite para_height_S in Hy.
    pose proof (para_height_nonneg (List.length ls)) as Hn.
    destruct ls as [| l' ls'].
    + cbn [multi_cell_lines List.length] in *. unfold render_line.
      rewrite will_page_break_fits by lra.
      eexists [_]. split; [reflexivity |]. split; [reflexivity |].
      split; [cbn [cell_draw with_xy y]; rewrite para_height_S;
              unfold para_height; cbn; ring |].
      split; [reflexivity |].
      constructor; [| constructor].
      repeat split; cbn [what prim_top prim_bottom].
      * lra.
      * rewrite para_height_S. lra.
    + rewrite multi_cell_lines_cons.
      unfold render_line. rewrite will_page_break_fits by lra.
      set (s1 := cell_draw Body w 5.5 (line_text l) (line_align l)
                   XLEFT YNEXT s).
      assert (Y1 : y s1 = y s + 5.5) by reflexivity.
      destruct (IH s1) as (texts & O & P & Y & T & F).
      { rewrite Y1.
        change (page_break_trigger s1) with (page_break_trigger s). lra. }
      eexists (_ :: texts).
      split; [rewrite O; cbn [s1 out cell_draw emit with_xy];
              rewrite <- app_assoc; reflexivity |].
      split; [exact P |].
      split; [rewrite Y, Y1, (para_height_S (List.length (l' :: ls')));
              ring |].
      split; [cbn [map what text_of]; now rewrite T |].
      constructor.
      * repeat split; cbn [what prim_top prim_bottom].
        -- lra.
        -- rewrite (para_height_S (List.length (l' :: ls'))). lra.
      * eapply Forall_impl; [| exact F].
        intros e. rewrite Y1. change (page s1) with (page s).
        apply placed_weaken;
          [lra | rewrite (para_height_S (List.length (l' :: ls'))); lra].
Qed.

(** X15.  The height of a paragraph.  On an open page, when the lines into
    which the breaker cuts the text (at least one is rendered, also for
    an empty text), 5.5 each, end above the trigger of the automatic page
    break by [slack] or more, [body_text] returns normally, draws these
    lines in order one under the other on the current page, and leaves
    the cursor at the left margin, lower by 5.5 per line plus 1, and by
    one more line of 5.5 when the text ends with a newline. *)
Theorem body_text_height (M : metrics) (t : string) (s : pdf)
    (ls : list text_line) :
  (0 < page s)%nat ->
  wrap_lines M "Helvetica" "" 10 (page_w - r_margin - x s) t = Some ls ->
  y s + para_height (List.length (at_least_one ls)) + slack
  <= page_break_trigger s ->
  exists s' texts,
    body_text M t s = Ok s'
    /\ out s' = (out s ++ texts)%list
    /\ map (fun e => text_of (what e)) texts
       = map (fun l => Some (line_text l)) (at_least_one ls)
    /\ Forall (placed (page s) (y s)
                 (y s + para_height (List.length (at_least_one ls))))
         texts
    /\ page s' = page s
    /\ y s' == y s + para_height (List.length (at_least_one ls))
               + (if ends_with_nl (at_least_one ls) then 5.5 else 0) + 1
    /\ x s' = l_margin
    /\ (1 <= List.length (at_least_one ls))%nat.
Proof.
  intros Hp E Hy. unfold body_text.
  set (s0 := set_text_color 30 30 30 (set_font "Helvetica" "" 10 s)).
  assert (P0 : (0 < page s0)%nat) by exact Hp.
  assert (F0 : font_family s0 <> "") by discriminate.
  rewrite (multi_cell_some M 0 5.5 t s0 ls P0 F0 E).
  change (Qeq_bool 0 0) with true. cbv iota.
  assert (Hy0 : y s0 + para_height (List.length (at_least_one ls))
                <= page_break_trigger s0).
  { change (y s0) with (y s).
    change (page_break_trigger s0) with (page_break_trigger s).
    unfold slack in Hy. lra. }
  destruct (multi_cell_lines_fit (page_w - r_margin - x s0)
              (at_least_one ls) s0 Hy0) as (texts & O & P & Y & T & F).
  cbn [bind].
  assert (PR : page (render_text (page_w - r_margin - x s0) 5.5
                       (at_least_one ls) s0) = page s0).
  { unfold render_text. destruct (ends_with_nl (at_least_one ls));
      exact P. }
  rewrite ln_ok by (rewrite PR; exact Hp).
  eexists. exists texts. split; [reflexivity |].
  split; [change (out (ln_move 1 ?a)) with (out a);
          rewrite render_text_out; exact O |].
  split; [exact T |]. split; [exact F |].
  split; [exact PR |].
  split.
  - change (y (ln_move 1 ?a)) with (y a + 1).
    unfold render_text. destruct (ends_with_nl (at_least_one ls)).
    + change (y (ln_move 5.5 ?a)) with (y a + 5.5). rewrite Y.
      change (y s0) with (y s). ring.
    + rewrite Y. change (y s0) with (y s). ring.
  - split; [reflexivity |].
    destruct (at_least_one_cons ls) as (l & ls' & ->). cbn. lia.
Qed.

Lemma body_text_height_witness :
  exists s' texts,
    body_text fixed_metrics "Ce rapport" first_page = Ok s'
    /\ out s' = (out first_page ++ texts)%list
    /\ map (fun e => text_of (what e)) texts
       = map (fun l => Some (line_text l))
           (at_least_one [mkTextLine "Ce rapport" false false])
    /\ Forall (placed (page first_page) (y first_page)
                 (y first_page
                  + para_height
                      (List.length
                         (at_least_one
                            [mkTextLine "Ce rapport" false false]))))
         texts
    /\ page s' = page first_page
    /\ y s' == y first_page
               + para_height
                   (List.length
                      (at_least_one [mkTextLine "Ce rapport" false false]))
               + (if ends_with_nl
                       (at_least_one [mkTextLine "Ce rapport" false false])
                  then 5.5 else 0)
               + 1
    /\ x s' = l_margin
    /\ (1 <= List.length
               (at_least_one [mkTextLine "Ce rapport" false false]))%nat.
Proof.
  apply (body_text_height fixed_metrics "Ce rapport" first_page
           [mkTextLine "Ce rapport" false false]).
  - vm_compute. lia.
  - vm_compute. reflexivity.
  - vm_compute. discriminate.
Defined.

(** ** A key-value line *)

Lemma multi_cell_lines_first w h (l : text_line) (ls : list text_line)
    (s : pdf) :
  y s + h <= page_break_trigger s ->
  exists d,
    out (multi_cell_lines w h (l :: ls) s)
    = (out s
       ++ mkEntry (page s) Body
            (Text (x s) (y s)
               (if Qeq_bool w 0 then page_w - r_margin - x s else w)
               h (line_text l)
               (match ls with [] => AlignL | _ => line_align l end)
               (font_family s) (font_style s) (font_size_pt s)
               (text_color s))
       :: d)%list.
Proof.
  intros Hy. destruct ls as [| l' ls'].
  - exists []. cbn [multi_cell_lines]. unfold render_line.
    rewrite will_page_break_fits by assumption. reflexivity.
  - rewrite multi_cell_lines_cons.
    unfold render_line. rewrite will_page_break_fits by assumption.
    set (s1 := cell_draw Body w h (line_text l) (line_align l)
                 XLEFT YNEXT s).
    destruct (adv_extends _ _ (adv_multi_cell_lines w h (l' :: ls') s1))
      as [d Hd].
    exists d. rewrite Hd. cbn [s1 out cell_draw emit with_xy].
    now rewrite <- app_assoc.
Qed.

(** X16.  Label and text share a line.  On an open page with room for one
    line of 5.5 above the trigger of the automatic page break (by [slack]
    or more), when the breaker returns lines for the text, [bold_text]
    returns normally and draws first the label, in Helvetica bold 10, in
    a cell as wide as the label plus 1, and directly after it the first
    line of the text, in Helvetica regular 10: at the same height as the
    label, starting where the cell of the label ends, in a cell that
    reaches the right margin.  That line is left-aligned when it is the
    only one, and otherwise justified if the breaker wrapped it. *)
Theorem bold_text_same_line (M : metrics) (l t : string) (s : pdf)
    (lw : Q) (ls : list text_line) :
  (0 < page s)%nat ->
  y s + 5.5 + slack <= page_break_trigger s ->
  lw = (if Qeq_bool (get_string_width M "Helvetica" "B" 10 l + 1) 0
        then page_w - r_margin - x s
        else get_string_width M "Helvetica" "B" 10 l + 1) ->
  wrap_lines M "Helvetica" "" 10 (page_w - r_margin - (x s + lw)) t
  = Some ls ->
  exists s' l1 rest d,
    bold_text M l t s = Ok s'
    /\ at_least_one ls = l1 :: rest
    /\ out s'
       = (out s
          ++ mkEntry (page s) Body
               (Text (x s) (y s) lw 5.5 l AlignL
                  "Helvetica" "B" 10 (30, 30, 30)%Z)
          :: mkEntry (page s) Body
               (Text (x s + lw) (y s) (page_w - r_margin - (x s + lw)) 5.5
                  (line_text l1)
                  (match rest with [] => AlignL | _ => line_align l1 end)
                  "Helvetica" "" 10 (30, 30, 30)%Z)
          :: d)%list.
Proof.
  intros Hp Hy Hlw E. subst lw. unfold bold_text.
  set (s0 := set_text_color 30 30 30 (set_font "Helvetica" "B" 10 s)).
  change (get_string_width M (font_family s0) (font_style s0)
            (font_size_pt s0) l)
    with (get_string_width M "Helvetica" "B" 10 l).
  set (sw := get_string_width M "Helvetica" "B" 10 l + 1) in *.
  assert (Hy' : y s0 + 5.5 <= page_break_trigger s0).
  { change (y s0) with (y s).
    change (page_break_trigger s0) with (page_break_trigger s).
    unfold slack in Hy. lra. }
  rewrite cell_ok by (first [exact Hp | discriminate]). cbn [bind].
  unfold render_line.
  rewrite will_page_break_fits by exact Hy'.
  set (s1 := set_font "Helvetica" "" 10
               (cell_draw Body sw 5.5 l AlignL XRIGHT YTOP s0)).
  assert (P1 : (0 < page s1)%nat) by exact Hp.
  assert (F1 : font_family s1 <> "") by discriminate.
  rewrite (multi_cell_some M 0 5.5 t s1 ls P1 F1 E).
  change (Qeq_bool 0 0) with true. cbv iota.
  destruct (at_least_one_cons ls) as (l1 & rest & A). rewrite A.
  destruct (multi_cell_lines_first (page_w - r_margin - x s1) 5.5 l1 rest s1)
    as [d Hd]; [exact Hy' |].
  eexists. exists l1, rest, d.
  split; [reflexivity |]. split; [reflexivity |].
  rewrite render_text_out, Hd.
  cbn [s1 s0 out cell_draw emit with_xy set_font set_text_color x y page
       font_family font_style font_size_pt text_color].
  rewrite <- app_assoc.
  destruct (Qeq_bool
              (page_w - r_margin
               - (x s + (if Qeq_bool sw 0 then page_w - r_margin - x s
                         else sw))) 0); reflexivity.
Qed.

Lemma bold_text_same_line_witness :
  exists s' l1 rest d,
    bold_text fixed_metrics "Langage :" "C++17" first_page = Ok s'
    /\ at_least_one [mkTextLine "C++17" false false] = l1 :: rest
    /\ out s'
       = (out first_page
          ++ mkEntry (page first_page) Body
               (Text (x first_page) (y first_page) 19 5.5 "Langage :" AlignL
                  "Helvetica" "B" 10 (30, 30, 30)%Z)
          :: mkEntry (page first_page) Body
               (Text (x first_page + 19) (y first_page)
                  (page_w - r_margin - (x first_page + 19)) 5.5
                  (line_text l1)
                  (match rest with [] => AlignL | _ => line_align l1 end)
                  "Helvetica" "" 10 (30, 30, 30)%Z)
          :: d)%list.
Proof.
  apply (bold_text_same_line fixed_metrics "Langage :" "C++17" first_page
           19 [mkTextLine "C++17" false false]).
  - vm_compute. lia.
  - vm_compute. discriminate.
  - vm_compute. reflexivity.
  - vm_compute. reflexivity.
Defined.

(** ** The alias outside the header *)

Lemma replace_alias_between (total a b : string) :
  brace_free a -> brace_free b ->
  replace "{nb}" total (a ++ "{nb}" ++ b) = a ++ total ++ b.
Proof.
  intros Ha Hb. unfold replace.
  rewrite replace_from_brace_free by assumption.
  assert (P : String.prefix "{nb}" ("{nb}" ++ b) = true)
    by (destruct b; reflexivity).
  change (replace_from "{nb}" total ("{nb}" ++ b) 0)
    with (if String.prefix "{nb}" ("{nb}" ++ b)
          then total ++ replace_from "{nb}" total b 0
          else String "{" (replace_from "{nb}" total ("nb}" ++ b) 0)).
  rewrite P.
  rewrite <- (append_empty_r b) at 1.
  rewrite replace_from_brace_free by assumption.
  cbn [replace_from]. now rewrite append_empty_r.
Qed.

(** X17.  The alias is resolved wherever it was written, not in the
    header alone.  If the content drew a text that contains "{nb}" once,
    between two parts without an opening brace, the finished document
    holds that text with the decimal page count in the place of the alias,
    at the same place on the same page and in the same style. *)
Theorem output_resolves_everywhere (M : metrics) (cs : list call) (s : pdf)
    (pg : nat) (r : region) (tx ty w h : Q) (a b : string) (al : Align)
    (fam sty : string) (sz : Z) (col : rgb) :
  run M cs report_pdf = Ok s ->
  In (mkEntry pg r (Text tx ty w h (a ++ "{nb}" ++ b) al fam sty sz col))
     (out s) ->
  brace_free a -> brace_free b ->
  In (mkEntry pg r
        (Text tx ty w h
           (a ++ string_of_nat (page_count (output s)) ++ b)
           al fam sty sz col))
     (content (output s)).
Proof.
  intros Hrun Hin Ha Hb.
  assert (A : str_alias_nb_pages s = "{nb}").
  { rewrite (alias_adv _ _ (adv_run _ _ _ _ Hrun)). reflexivity. }
  set (s0 := if (page s =? 0)%nat then add_page s else s).
  assert (H0 : exists d0, out s0 = (out s ++ d0)%list
                          /\ str_alias_nb_pages s0 = "{nb}").
  { unfold s0. destruct (page s =? 0)%nat.
    - exists (furniture (page s) (draw_color s)).
      split; [apply add_page_out |].
      now rewrite (proj2 (proj2 (add_page_config s))).
    - exists []. now rewrite app_nil_r. }
  destruct H0 as (d0 & O0 & A0).
  change (output s)
    with {| page_count := page (footer s0);
            content := map (resolve_entry (str_alias_nb_pages (footer s0))
                              (string_of_nat (page (footer s0))))
                           (out (footer s0)) |}.
  cbn [content page_count]. rewrite footer_alias, A0, footer_out, O0.
  rewrite <- (replace_alias_between _ a b Ha Hb).
  apply (in_map (resolve_entry "{nb}" (string_of_nat (page (footer s0))))
           _ (mkEntry pg r
                (Text tx ty w h (a ++ "{nb}" ++ b) al fam sty sz col))).
  apply in_or_app. left. apply in_or_app. now left.
Qed.

Lemma output_resolves_everywhere_witness :
  In (mkEntry 1 Header
        (Text (l_margin + (page_w - r_margin - l_margin)) t_margin
           (page_w - r_margin - (l_margin + (page_w - r_margin - l_margin)))
           5 ("Page 1/" ++ string_of_nat (page_count (output first_page))
              ++ "")
           AlignR "Helvetica" "I" 8 (120, 120, 120)%Z))
     (content (output first_page)).
Proof.
  apply (output_resolves_everywhere fixed_metrics [AddPage] first_page
           1 Header (l_margin + (page_w - r_margin - l_margin)) t_margin
           (page_w - r_margin - (l_margin + (page_w - r_margin - l_margin)))
           5 "Page 1/" "" AlignR "Helvetica" "I" 8 (120, 120, 120)%Z).
  - reflexivity.
  - vm_compute. right. left. reflexivity.
  - vm_compute. repeat split; discriminate.
  - exact I.
Defined.
